(** * AI Desktop Assistant: turn-taking coordinator, intent router, history

    A shallow embedding of the listening/speaking coordination logic of
    [main.py] (class [AIAssistantApp]), [modules/speech_recognition_module.py]
    (class [SpeechRecognitionModule]), [modules/text_to_speech_module.py],
    [modules/ai_module.py] and [utils/config.py].

    Conventions of the embedding.
    - Python [str] values are modelled as [string]: a character stands
      for the code point of its number, so the texts covered are those
      over the code points 0 to 255 (Latin-1).  [str.lower] and
      [str.strip] are Python's on that range.
    - Every method that mutates [self] becomes a state transformer.  Calls
      into collaborators that are outside the coordinator (the window
      widgets, the Qt timer, the capture thread, the REST clients) are
      recorded, in program order, in an effect log carried by the state.
    - Everything the environment decides (the wall clock, whether a
      microphone was found, when the capture thread terminates, when the
      speech engine reports start and finish, what a REST client answers)
      is an input of the transition system.
    - An exception that leaves a handler is recorded as the effect
      [Raised]; the rest of the handler is skipped.  What PyQt does with
      it (older versions print the traceback and go on, newer ones end
      the process) is left open: the transition system goes on, so what
      holds of all its runs holds in both cases. *)

From Stdlib Require Import ZArith List Ascii String DecimalString Bool Lia.
From stdpp Require Import base option gmap strings.
Import ListNotations.

Local Open Scope string_scope.

(** ** Python string primitives used by the sources *)

Module PyStr.

(** [c.lower()] on one code point below 256: the capitals are A to Z and
    U+00C0 to U+00DE without the multiplication sign U+00D7, and each
    has its small letter 32 places further. *)
Definition lower_char (c : ascii) : ascii :=
  let n := N_of_ascii c in
  if (((65 <=? n) && (n <=? 90)) ||
      ((192 <=? n) && (n <=? 222) && negb (n =? 215)))%N
  then ascii_of_N (n + 32) else c.

(** The capital of an unaccented small letter a to z; other characters
    are left alone. *)
Definition upper_char (c : ascii) : ascii :=
  let n := N_of_ascii c in
  if ((97 <=? n) && (n <=? 122))%N then ascii_of_N (n - 32) else c.

Fixpoint map_chars (f : ascii -> ascii) (s : string) : string :=
  match s with
  | EmptyString => EmptyString
  | String c r => String (f c) (map_chars f r)
  end.

(** [s.lower()]. *)
Definition lower : string -> string := map_chars lower_char.

(** The text with its letters a to z capitalised. *)
Definition upper : string -> string := map_chars upper_char.

(** [s.startswith(p)]. *)
Fixpoint startswith (s p : string) {struct p} : bool :=
  match p, s with
  | EmptyString, _ => true
  | String a p', String b s' => if Ascii.eqb a b then startswith s' p' else false
  | String _ _, EmptyString => false
  end.

(** [k in s] for two strings: [k] occurs in [s] as a contiguous block. *)
Fixpoint contains (k s : string) : bool :=
  startswith s k ||
  match s with
  | EmptyString => false
  | String _ r => contains k r
  end.

(** [s[n:]]. *)
Fixpoint drop (n : nat) (s : string) : string :=
  match n, s with
  | O, _ => s
  | S n', String _ r => drop n' r
  | S _, EmptyString => EmptyString
  end.

(** [c.isspace()], the characters [str.strip()] removes, below 256:
    U+0009 to U+000D, U+001C to U+0020, U+0085 and U+00A0. *)
Definition is_space (c : ascii) : bool :=
  let n := N_of_ascii c in
  (((9 <=? n) && (n <=? 13)) || ((28 <=? n) && (n <=? 32)) ||
   (n =? 133) || (n =? 160))%N.

Fixpoint lstrip (s : string) : string :=
  match s with
  | EmptyString => EmptyString
  | String c r => if is_space c then lstrip r else s
  end.

Fixpoint rstrip (s : string) : string :=
  match s with
  | EmptyString => EmptyString
  | String c r =>
      match rstrip r with
      | EmptyString => if is_space c then EmptyString else String c EmptyString
      | r' => String c r'
      end
  end.

(** [s.strip()]. *)
Definition strip (s : string) : string := rstrip (lstrip s).

(** [x in [a, b, ...]] for a list of strings. *)
Definition mem (x : string) (l : list string) : bool :=
  existsb (String.eqb x) l.

(** [any(w in text for w in words)]. *)
Definition any_in (words : list string) (text : string) : bool :=
  existsb (fun w => contains w text) words.

(** [any(text.startswith(p) for p in prefixes)]. *)
Definition any_startswith (text : string) (prefixes : list string) : bool :=
  existsb (startswith text) prefixes.

(** Truthiness of a string: [not s] holds exactly for the empty one. *)
Definition truthy (s : string) : bool :=
  match s with EmptyString => false | String _ _ => true end.

(** Declarative reading of [k in s]. *)
Definition Substring (k s : string) : Prop :=
  exists pre post, s = pre ++ k ++ post.

(** [sep] occurs in [s], and its first occurrence has [pre] before it
    and [post] after it. *)
Definition Cut (sep s pre post : string) : Prop :=
  s = pre ++ sep ++ post /\
  forall pre' post', s = pre' ++ sep ++ post' ->
    String.length pre <= String.length pre'.

(** [piece] is what [s] holds up to the first occurrence of [sep]: all
    of [s] when [sep] does not occur. *)
Definition Piece (sep s piece : string) : Prop :=
  (~ Substring sep s /\ piece = s) \/ exists post, Cut sep s piece post.

End PyStr.

(** ** Intent classification ([AIAssistantApp.get_command_intent]) *)

Module Intent.
Import PyStr.

Definition weather_words : list string := ["weather"; "temperature"; "forecast"].
Definition news_words : list string := ["news"; "headlines"; "latest"].
Definition reminder_words : list string := ["remind"; "reminder"; "schedule"].
Definition time_words : list string := ["time"; "date"; "day"].
Definition help_words : list string := ["help"; "command"; "what can you do"].

Definition get_command_intent (text : string) : string :=
  let text_lower := lower text in
  if any_in weather_words text_lower then "weather"
  else if any_in news_words text_lower then "news"
  else if any_in reminder_words text_lower then "reminder"
  else if any_in time_words text_lower then "time"
  else if any_in help_words text_lower then "help"
  else "general".

(** A text mentions a keyword set when, once lowered, it contains one of
    its words. *)
Definition mentions (words : list string) (text : string) : Prop :=
  exists w, In w words /\ Substring w (lower text).

End Intent.

(** ** Configuration store ([utils/config.py]) *)

Module Config.

(** The JSON scalars a configuration file holds. *)
Inductive pyval :=
| PNone
| PBool (b : bool)
| PInt (z : Z)
| PFloat (num : Z) (den : positive)
| PStr (s : string).

(** [config_data]: a dictionary of sections, each a dictionary of keys. *)
Definition config_data : Type := gmap string (gmap string pyval).

(** [AppConfig.get(section, key, default=None)]:
    [self.config_data.get(section, {}).get(key, default)]. *)
Definition get (cfg : gmap string (gmap string pyval))
    (section key : string) (dflt : pyval) : pyval :=
  let sec := match cfg !! section with Some d => d | None => ∅ end in
  match sec !! key with Some v => v | None => dflt end.

(** [AppConfig.create_default_config]. *)
Definition create_default_config : gmap string (gmap string pyval) :=
  <["general" := <["voice_enabled" := PBool true]>
                 (<["startup_greeting" := PBool true]>
                 (<["theme" := PStr "default"]> ∅))]>
 (<["voice" := <["rate" := PInt 150]>
               (<["volume" := PFloat 1 1]>
               (<["preferred_voice" := PNone]> ∅))]>
 (<["weather" := <["default_location" := PNone]>
                 (<["units" := PStr "metric"]> ∅)]>
 (<["news" := <["default_country" := PStr "us"]>
              (<["default_category" := PStr "general"]>
              (<["article_count" := PInt 5]> ∅))]> ∅))).

(** Truthiness of a scalar ([if v:]). *)
Definition truthy (v : pyval) : bool :=
  match v with
  | PNone => false
  | PBool b => b
  | PInt z => negb (z =? 0)%Z
  | PFloat n _ => negb (n =? 0)%Z
  | PStr s => PyStr.truthy s
  end.

End Config.

(** ** Effects: what the coordinator asks of its collaborators *)

(** Callbacks handed to [QTimer.singleShot]. *)
Inductive TimerCallback :=
| CheckAndRestartListening
| AppQuit.

Inductive Effect :=
| UpdateResponse (text : string)      (* main_window.update_response(text) *)
| ListeningStarted                     (* signal listening_started reaches the window *)
| ListeningEnded                       (* signal listening_ended reaches the window *)
| ThreadStart                          (* speech_thread.start(): a capture session begins *)
| MSleep (ms : Z)                      (* QThread.msleep(ms) *)
| SingleShot (ms : Z) (cb : TimerCallback)
| SpeakTask (text : string)            (* thread_pool.start(SpeakTask(engine, text)) *)
| GetCommandIntent (text : string)     (* an evaluation of get_command_intent(text) *)
| GetWeather (location : Config.pyval) (* weather_module.get_weather(location, ...) *)
| GetNews (category : string)          (* news_module.get_news(category, ...) *)
| ProcessQuery (query : string)        (* ai_module.process_query(query, ...) *)
| EngineShutdown                       (* tts_module.shutdown() *)
| EventAccept
| Raised (exn : string).               (* an exception leaves the handler *)

(** ** Capture sessions ([modules/speech_recognition_module.py]) *)

Module Speech.

(** The part of a [SpeechRecognitionThread] the module looks at. *)
Record Thread := {
  is_running : bool;      (* isRunning() *)
  stop_event : bool       (* stop_event.is_set() *)
}.

Record t := {
  speech_thread : option Thread;
  timeout_count : Z;
  max_timeouts : Z;
  microphone : bool       (* the attribute self.microphone exists *)
}.

(** State after [__init__].  [sr.Microphone()] may raise: the exception
    is caught and printed, and [self.microphone] is then never assigned. *)
Definition init (microphone_found : bool) : t :=
  {| speech_thread := None; timeout_count := 0; max_timeouts := 3;
     microphone := microphone_found |}.

(** [self.speech_thread and self.speech_thread.isRunning()]. *)
Definition thread_running (m : t) : bool :=
  match speech_thread m with
  | Some th => is_running th
  | None => false
  end.

(** [start_listening] reads [self.microphone] when it builds the thread,
    after it has reset the counter and emitted [listening_started]:
    without the attribute an [AttributeError] leaves the method there. *)
Definition start_raises (m : t) : bool :=
  negb (thread_running m) && negb (microphone m).

Definition start_listening (m : t) : t * list Effect :=
  if thread_running m then (m, [])
  else if microphone m then
    ({| speech_thread := Some {| is_running := true; stop_event := false |};
        timeout_count := 0;
        max_timeouts := max_timeouts m;
        microphone := microphone m |},
     [ListeningStarted; ThreadStart; SingleShot 7000 CheckAndRestartListening])
  else
    ({| speech_thread := speech_thread m;
        timeout_count := 0;
        max_timeouts := max_timeouts m;
        microphone := microphone m |},
     [ListeningStarted; Raised "AttributeError"]).

Definition check_and_restart_listening (m : t) : t * list Effect :=
  if negb (thread_running m) then
    if (timeout_count m <? max_timeouts m)%Z then
      start_listening
        {| speech_thread := speech_thread m;
           timeout_count := timeout_count m + 1;
           max_timeouts := max_timeouts m;
           microphone := microphone m |}
    else
      ({| speech_thread := speech_thread m;
          timeout_count := 0;
          max_timeouts := max_timeouts m;
          microphone := microphone m |}, [])
  else (m, []).

Definition stop_listening (m : t) : t * list Effect :=
  match speech_thread m with
  | Some th =>
      if is_running th then
        ({| speech_thread := Some {| is_running := true; stop_event := true |};
            timeout_count := timeout_count m;
            max_timeouts := max_timeouts m;
            microphone := microphone m |},
         [MSleep 100])
      else (m, [ListeningEnded])
  | None => (m, [ListeningEnded])
  end.

(** The capture thread leaves [run]: its [finally] clause emits
    [listening_ended], forwarded by [on_listening_ended], and
    [isRunning()] turns false.  When the thread found its stop event set
    right after the audio capture ([stopped_in_capture]), it has emitted
    [listening_ended] once already before it returns. *)
Definition thread_finished (stopped_in_capture : bool) (m : t) : t * list Effect :=
  match speech_thread m with
  | Some th =>
      if is_running th then
        ({| speech_thread := Some {| is_running := false; stop_event := stop_event th |};
            timeout_count := timeout_count m;
            max_timeouts := max_timeouts m;
            microphone := microphone m |},
         if stopped_in_capture && stop_event th
         then [ListeningEnded; ListeningEnded]
         else [ListeningEnded])
      else (m, [])
  | None => (m, [])
  end.

End Speech.

(** ** Speech output ([modules/text_to_speech_module.py]) *)

Module Tts.

Record t := { speaking : bool }.

Definition init : t := {| speaking := false |}.

(** [speak(text)]: nothing for an empty text, otherwise one queued task. *)
Definition speak (text : string) : list Effect :=
  if PyStr.truthy text then [SpeakTask text] else [].

End Tts.

(** ** General-query collaborator ([modules/ai_module.py]) *)

Module AI.

Record ResponseInfo := {
  success : bool;
  query : string;
  response : string;
  error : option string
}.

(** What [openai.chat.completions.create] does when it is called. *)
Inductive ApiOutcome :=
| ApiContent (content : string)    (* response.choices[0].message.content *)
| ApiNoChoices                     (* an empty response.choices *)
| ApiRaises (msg : string).        (* any Exception *)

(** What the module does not decide itself. *)
Record Env := {
  openai_available : bool;         (* OPENAI_AVAILABLE *)
  api : ApiOutcome;
  random_index : nat               (* the draw of random.choice *)
}.

Record t := { api_key : option string }.

(** [if self.api_key]. *)
Definition has_key (m : t) : bool :=
  match api_key m with
  | Some k => PyStr.truthy k
  | None => false
  end.

Definition fallback_responses : list string :=
  [ "I'm sorry, I can't access my AI services right now.";
    "I'm having trouble connecting to my knowledge base at the moment.";
    "I apologize, but I'm unable to process that request right now.";
    "My advanced AI capabilities are currently unavailable. Can I help with something basic instead?" ].

(** [random.choice(seq)] with the draw taken from the environment. *)
Definition random_choice (draw : nat) (seq : list string) : string :=
  nth (draw mod length seq) seq "".

Definition _get_fallback_response (env : Env) (prompt : string) : string :=
  random_choice (random_index env) fallback_responses.

Definition generate_response (env : Env) (m : t) (prompt : string) : string :=
  if negb (openai_available env) || negb (has_key m) then
    _get_fallback_response env prompt
  else
    match api env with
    | ApiContent content => content
    | ApiNoChoices => "I'm not sure how to respond to that."
    | ApiRaises _ => _get_fallback_response env prompt
    end.

(** How a call of [process_query] ends. *)
Inductive outcome :=
| Returned (info : ResponseInfo)
| Propagated (msg : string).

Section WithCallback.
(** The caller's state, and a callback that runs on it and either
    returns ([None]) or raises an exception with a message. *)
Context {S : Type}.

Definition Callback : Type := ResponseInfo -> S -> S * option string.

(** The [try] block up to and including the callback. *)
Definition response_info (env : Env) (m : t) (q : string) : ResponseInfo :=
  {| success := true;
     query := q;
     response := if has_key m then generate_response env m q
                 else _get_fallback_response env q;
     error := None |}.

Definition error_response (q e : string) : ResponseInfo :=
  {| success := false;
     query := q;
     response := "I encountered an error processing your request.";
     error := Some e |}.

Definition process_query (env : Env) (m : t) (q : string)
    (callback : option Callback) (s : S) : S * outcome :=
  let info := response_info env m q in
  let attempt :=
    match callback with
    | Some cb => cb info s
    | None => (s, None)
    end in
  match attempt with
  | (s1, None) => (s1, Returned info)
  | (s1, Some e) =>
      let err := error_response q e in
      match callback with
      | Some cb =>
          match cb err s1 with
          | (s2, None) => (s2, Returned err)
          | (s2, Some e2) => (s2, Propagated e2)
          end
      | None => (s1, Returned err)
      end
  end.

(** A callback instrumented to keep what it is handed, in order. *)
Definition recording (cb : Callback)
    : ResponseInfo -> S * list ResponseInfo -> (S * list ResponseInfo) * option string :=
  fun info sl =>
    let '(s', e) := cb info (fst sl) in ((s', (snd sl ++ [info])%list), e).

End WithCallback.

End AI.

(** ** The application ([main.py], class [AIAssistantApp]) *)

Module App.
Import PyStr.

(** One entry of [command_history]. *)
Record CommandRecord := {
  command : string;
  timestamp : string;
  intent : string
}.

(** [QDateTime.currentDateTime()] rendered in the three formats used. *)
Record Clock := {
  stamp : string;        (* yyyy-MM-dd hh:mm:ss *)
  time_ap : string;      (* hh:mm AP *)
  date_long : string     (* dddd, MMMM d, yyyy *)
}.

(** The dictionary a weather lookup hands to its callback, every field
    already rendered the way an f-string renders it. *)
Record WeatherInfo := {
  w_success : bool;
  w_location : string;
  w_description : string;
  w_temperature : string;
  w_forecast : option string
}.

(** The dictionary a news lookup hands to its callback: the titles. *)
Record NewsInfo := {
  n_success : bool;
  n_articles : list string
}.

Record t := {
  config : gmap string (gmap string Config.pyval);
  speech_module : Speech.t;
  tts_module : Tts.t;
  command_history : list CommandRecord;
  max_history_size : nat;
  recent_intents : gmap string Z;
  is_listening_enabled : bool;
  log : list Effect
}.

(** State after [__init__], for a configuration and for whether the
    capture module found a microphone. *)
Definition init (cfg : gmap string (gmap string Config.pyval))
    (microphone_found : bool) : t :=
  {| config := cfg;
     speech_module := Speech.init microphone_found;
     tts_module := Tts.init;
     command_history := [];
     max_history_size := 20;
     recent_intents := ∅;
     is_listening_enabled := false;
     log := [] |}.

(** Field updates. *)
Definition emit (es : list Effect) (a : t) : t :=
  {| config := config a; speech_module := speech_module a;
     tts_module := tts_module a; command_history := command_history a;
     max_history_size := max_history_size a;
     recent_intents := recent_intents a;
     is_listening_enabled := is_listening_enabled a;
     log := (log a ++ es)%list |}.

Definition set_speech_module (m : Speech.t) (a : t) : t :=
  {| config := config a; speech_module := m;
     tts_module := tts_module a; command_history := command_history a;
     max_history_size := max_history_size a;
     recent_intents := recent_intents a;
     is_listening_enabled := is_listening_enabled a;
     log := log a |}.

Definition set_tts_module (m : Tts.t) (a : t) : t :=
  {| config := config a; speech_module := speech_module a;
     tts_module := m; command_history := command_history a;
     max_history_size := max_history_size a;
     recent_intents := recent_intents a;
     is_listening_enabled := is_listening_enabled a;
     log := log a |}.

Definition set_command_history (h : list CommandRecord) (a : t) : t :=
  {| config := config a; speech_module := speech_module a;
     tts_module := tts_module a; command_history := h;
     max_history_size := max_history_size a;
     recent_intents := recent_intents a;
     is_listening_enabled := is_listening_enabled a;
     log := log a |}.

Definition set_recent_intents (m : gmap string Z) (a : t) : t :=
  {| config := config a; speech_module := speech_module a;
     tts_module := tts_module a; command_history := command_history a;
     max_history_size := max_history_size a;
     recent_intents := m;
     is_listening_enabled := is_listening_enabled a;
     log := log a |}.

Definition set_is_listening_enabled (b : bool) (a : t) : t :=
  {| config := config a; speech_module := speech_module a;
     tts_module := tts_module a; command_history := command_history a;
     max_history_size := max_history_size a;
     recent_intents := recent_intents a;
     is_listening_enabled := b;
     log := log a |}.

(** Run a method of [self.speech_module]. *)
Definition on_speech_module (f : Speech.t -> Speech.t * list Effect) (a : t) : t :=
  let '(m, es) := f (speech_module a) in emit es (set_speech_module m a).

Definition nl : string := String (ascii_of_nat 10) EmptyString.

(** [str(i)] for a natural number. *)
Definition str_nat (i : nat) : string :=
  DecimalString.NilZero.string_of_uint (Nat.to_uint i).

(** [main_window.add_assistant_message] and [add_user_message]. *)
Definition add_assistant_message (message : string) : list Effect :=
  if truthy message then [UpdateResponse message] else [].

Definition add_user_message (message : string) : list Effect :=
  if truthy message then [UpdateResponse ("You: " ++ message)] else [].

Definition handle_assistant_response (response : string) (a : t) : t :=
  emit (add_assistant_message response ++ Tts.speak response)%list a.

Definition add_to_command_history (now : Clock) (cmd : string) (a : t) : t :=
  let a := emit [GetCommandIntent cmd] a in
  let h := (command_history a ++
            [{| command := cmd; timestamp := stamp now;
                intent := Intent.get_command_intent cmd |}])%list in
  if (max_history_size a <? length h)%nat
  then set_command_history (tl h) a
  else set_command_history h a.

Definition update_intent_frequency (i : string) (a : t) : t :=
  match recent_intents a !! i with
  | Some n => set_recent_intents (<[i := (n + 1)%Z]> (recent_intents a)) a
  | None => set_recent_intents (<[i := 1%Z]> (recent_intents a)) a
  end.

Definition help_text : string :=
  "Here are the things I can help you with:" ++ nl ++
  "- Weather information (e.g., 'What's the weather today?')" ++ nl ++
  "- News headlines (e.g., 'Show me the latest news')" ++ nl ++
  "- Reminders (e.g., 'Remind me to call mom')" ++ nl ++
  "- General questions (e.g., 'Who is the president?')" ++ nl ++
  "- System commands (e.g., 'exit', 'history')" ++ nl ++ nl ++
  "You can also ask me about your command history.".

Definition show_help (a : t) : t := handle_assistant_response help_text a.

(** The loop of [show_command_history] over [enumerate(items, i)]. *)
Fixpoint history_lines (i : nat) (items : list CommandRecord) : string :=
  match items with
  | [] => ""
  | item :: rest =>
      str_nat i ++ ". " ++ command item ++ " (" ++ timestamp item ++ ")" ++ nl
      ++ history_lines (S i) rest
  end.

Definition show_command_history (a : t) : t :=
  match command_history a with
  | [] => handle_assistant_response "You haven't given me any commands yet." a
  | _ =>
      let num_to_show := Nat.min 5 (length (command_history a)) in
      let history_items :=
        skipn (length (command_history a) - num_to_show) (command_history a) in
      handle_assistant_response
        ("Here are your recent commands:" ++ nl ++
         history_lines 1 (rev history_items)) a
  end.

Definition execute_direct_command (now : Clock) (command_text : string) (a : t)
    : bool * t :=
  if mem command_text ["time"; "current time"; "what time is it"] then
    (true, handle_assistant_response ("The current time is " ++ time_ap now) a)
  else if mem command_text ["date"; "today"; "what day is it"; "current date"] then
    (true, handle_assistant_response ("Today is " ++ date_long now) a)
  else if mem command_text ["repeat"; "repeat last"; "say that again"] then
    (true,
     if (1 <? length (command_history a))%nat then
       match command_history a !! (length (command_history a) - 2)%nat with
       | Some r => handle_assistant_response ("Your last command was: " ++ command r) a
       | None => a
       end
     else handle_assistant_response "You haven't made any previous commands." a)
  else if mem command_text ["start listening"; "listen"] then
    (* an exception raised by start_listening leaves this method and its
       callers: the response is skipped *)
    (true,
     if Speech.start_raises (speech_module a)
     then on_speech_module Speech.start_listening a
     else handle_assistant_response "I'm listening now."
            (on_speech_module Speech.start_listening a))
  else if mem command_text ["stop listening"; "stop"] then
    (true, handle_assistant_response "I've stopped listening."
             (on_speech_module Speech.stop_listening a))
  else (false, a).

Definition command_prefixes : list string :=
  ["computer"; "assistant"; "hey assistant"; "execute"; "run"].

Definition process_system_command (now : Clock) (text : string) (a : t)
    : bool * t :=
  let text_lower := lower text in
  let is_direct_command := any_startswith text_lower command_prefixes in
  match (if is_direct_command
         then find (startswith text_lower) command_prefixes
         else None) with
  | Some prefix =>
      let command_text := strip (drop (String.length prefix) text_lower) in
      execute_direct_command now command_text a
  | None =>
      if any_in ["exit"; "quit"; "close"; "shutdown"] text_lower then
        (true, emit [SingleShot 2000 AppQuit]
                 (handle_assistant_response "Shutting down. Goodbye!" a))
      else if any_in ["help"; "what can you do"; "commands"] text_lower then
        (true, show_help a)
      else if any_in ["history"; "previous commands"; "what did i say"] text_lower then
        (true, show_command_history a)
      else (false, a)
  end.

Definition process_weather_command (text : string) (a : t) : t :=
  let location := Config.get (config a) "default_location" "Lucknow" Config.PNone in
  emit [GetWeather location] a.

Definition process_news_command (text : string) (a : t) : t :=
  let category :=
    if contains "technology" (lower text) || contains "tech" (lower text)
    then "technology"
    else if contains "sports" (lower text) then "sports"
    else if contains "business" (lower text) then "business"
    else "general" in
  emit [GetNews category] a.

Definition process_reminder_command (text : string) (a : t) : t :=
  handle_assistant_response "I've set a reminder for you" a.

Definition apology_no_input : string :=
  "I didn't catch that. Could you please speak again?".

(** [process_command(text)]; [None] stands for Python's [None]. *)
Definition process_command (now : Clock) (text : option string) (a : t) : t :=
  match text with
  | None => handle_assistant_response apology_no_input a
  | Some EmptyString => handle_assistant_response apology_no_input a
  | Some text =>
      let a := emit (add_user_message text) a in
      let a := add_to_command_history now text a in
      let '(handled, a) := process_system_command now text a in
      if handled then a
      else
        let a := emit [GetCommandIntent text] a in
        let command_intent := Intent.get_command_intent text in
        let a := update_intent_frequency command_intent a in
        if String.eqb command_intent "weather" then process_weather_command text a
        else if String.eqb command_intent "news" then process_news_command text a
        else if String.eqb command_intent "reminder" then process_reminder_command text a
        else emit [ProcessQuery text] a
  end.

Definition apology_weather : string :=
  "Sorry, I couldn't get the weather information. Please try again later.".

Definition handle_weather_response (weather_info : WeatherInfo) (a : t) : t :=
  let response :=
    if w_success weather_info then
      "The weather in " ++ w_location weather_info ++ " is " ++
      w_description weather_info ++ " with a temperature of " ++
      w_temperature weather_info ++ "°C." ++
      match w_forecast weather_info with
      | Some f => " Tomorrow's forecast: " ++ f
      | None => ""
      end
    else apology_weather in
  handle_assistant_response response a.

(** The loop of [handle_news_response] over [enumerate(news_items, i)]. *)
Fixpoint headline_items (i : nat) (titles : list string) : string :=
  match titles with
  | [] => ""
  | title :: rest => str_nat i ++ ". " ++ title ++ ". " ++ headline_items (S i) rest
  end.

Definition handle_news_response (news_info : NewsInfo) (a : t) : t :=
  let response :=
    if n_success news_info then
      "Here are the latest headlines: " ++
      headline_items 1 (firstn 3 (n_articles news_info))
    else "Sorry, I couldn't get the latest news. Please try again later." in
  handle_assistant_response response a.

Definition apology_ai : string :=
  "Sorry, I couldn't process your request. Please try again.".

Definition handle_ai_response (response_info : AI.ResponseInfo) (a : t) : t :=
  let response :=
    if AI.success response_info then AI.response response_info
    else apology_ai in
  handle_assistant_response response a.

Definition enable_listening (a : t) : t :=
  on_speech_module Speech.start_listening (set_is_listening_enabled true a).

Definition disable_listening (a : t) : t :=
  on_speech_module Speech.stop_listening (set_is_listening_enabled false a).

Definition resume_listening_after_tts (a : t) : t :=
  if is_listening_enabled a then on_speech_module Speech.start_listening a
  else a.

Definition handle_close_event (a : t) : t :=
  emit [EngineShutdown; EventAccept] (on_speech_module Speech.stop_listening a).

(** [TextToSpeechModule.on_start]: the first word of an utterance raises
    [speech_started], which is connected to [speech_module.stop_listening]. *)
Definition on_start (a : t) : t :=
  if Tts.speaking (tts_module a) then a
  else on_speech_module Speech.stop_listening
         (set_tts_module {| Tts.speaking := true |} a).

(** [TextToSpeechModule.on_finish]: raises [speech_finished], which is
    connected to [resume_listening_after_tts]. *)
Definition on_finish (a : t) : t :=
  if Tts.speaking (tts_module a)
  then resume_listening_after_tts (set_tts_module {| Tts.speaking := false |} a)
  else a.

(** [MainWindow.on_speech_recognized], whose [process_text_signal] is
    connected to [process_command]. *)
Definition on_speech_recognized (now : Clock) (text : string) (a : t) : t :=
  if truthy text then
    process_command now (Some text)
      (emit [UpdateResponse ("You said: " ++ text ++ nl ++ nl ++ "Processing...")] a)
  else a.

(** [run]: the greeting, then listening is switched on. *)
Definition greeting : string :=
  "Hello! I'm your AI desktop assistant. How can I help you today?".

Definition run (a : t) : t :=
  let a :=
    if Config.truthy (Config.get (config a) "general" "startup_greeting" (Config.PBool true))
    then emit (add_assistant_message greeting ++ Tts.speak greeting)%list a
    else a in
  enable_listening a.

(** *** The coordinator as a transition system *)

(** Everything that can make the foreground thread run a handler. *)
Inductive Input :=
| MicButtonClicked                          (* start_listening_signal *)
| StopListeningRequested                    (* stop_listening_signal *)
| TextSubmitted (now : Clock) (text : option string)   (* process_text_signal *)
| TextRecognized (now : Clock) (text : string)  (* the capture thread's text_recognized *)
| ThreadFinished (stopped_in_capture : bool)   (* the capture thread leaves run() *)
| RestartTimerFired                         (* the 7000 ms single shot *)
| SpeechEngineStarted                       (* pyttsx3 'started-word' *)
| SpeechEngineFinished                      (* pyttsx3 'finished-flat' *)
| WeatherAnswered (info : WeatherInfo)
| NewsAnswered (info : NewsInfo)
| QueryAnswered (info : AI.ResponseInfo)
| WindowClosed.

Definition step (i : Input) (a : t) : t :=
  match i with
  | MicButtonClicked => enable_listening a
  | StopListeningRequested => disable_listening a
  | TextSubmitted now text => process_command now text a
  | TextRecognized now text =>
      (* the thread emits only [if text and len(text.strip()) > 0] *)
      if truthy text && truthy (strip text)
      then on_speech_recognized now text a
      else a
  | ThreadFinished stopped_in_capture =>
      on_speech_module (Speech.thread_finished stopped_in_capture) a
  | RestartTimerFired => on_speech_module Speech.check_and_restart_listening a
  | SpeechEngineStarted => on_start a
  | SpeechEngineFinished => on_finish a
  | WeatherAnswered info => handle_weather_response info a
  | NewsAnswered info => handle_news_response info a
  | QueryAnswered info => handle_ai_response info a
  | WindowClosed => handle_close_event a
  end.

(** Feed a sequence of inputs, oldest first. *)
Definition exec (inputs : list Input) (a : t) : t :=
  fold_left (fun a i => step i a) inputs a.

(** *** Views of the state used in the statements *)

(** A capture session is active. *)
Definition listening (a : t) : bool := Speech.thread_running (speech_module a).

(** Speech output is in progress. *)
Definition suspended (a : t) : bool := Tts.speaking (tts_module a).

(** The capture module found a microphone when it was set up. *)
Definition has_microphone (a : t) : bool := Speech.microphone (speech_module a).

(** What [start_listening] emits when no capture thread is running. *)
Definition session_effects (a : t) : list Effect :=
  if has_microphone a
  then [ListeningStarted; ThreadStart; SingleShot 7000 CheckAndRestartListening]
  else [ListeningStarted; Raised "AttributeError"].

(** The number of capture sessions started so far. *)
Definition sessions_started (a : t) : nat :=
  length (List.filter (fun e => match e with ThreadStart => true | _ => false end) (log a)).

(** The effects appended by a transition. *)
Definition new_effects (before after : t) : list Effect :=
  skipn (length (log before)) (log after).

Definition is_classification (e : Effect) : bool :=
  match e with GetCommandIntent _ => true | _ => false end.

Definition is_dispatch (e : Effect) : bool :=
  match e with
  | GetWeather _ | GetNews _ | ProcessQuery _ => true
  | _ => false
  end.

(** The current count of an intent tag ([0] when the key is absent). *)
Definition intent_count (a : t) (tag : string) : Z :=
  match recent_intents a !! tag with Some n => n | None => 0%Z end.

(** The record [add_to_command_history] builds for one call. *)
Definition record_of (call : Clock * string) : CommandRecord :=
  {| command := snd call;
     timestamp := stamp (fst call);
     intent := Intent.get_command_intent (snd call) |}.

(** A sequence of [add_to_command_history] calls, oldest first, each with
    the clock reading it sees. *)
Definition record_all (calls : list (Clock * string)) (a : t) : t :=
  fold_left (fun a call => add_to_command_history (fst call) (snd call) a) calls a.

(** States the application can be in: any inputs after [__init__]. *)
Definition reachable (a : t) : Prop :=
  exists cfg mic inputs, a = exec inputs (init cfg mic).

(** One auto-restart round of the capture module: the restart check
    runs, and the session it may have started ends without text. *)
Definition timeout_round (m : Speech.t) : Speech.t :=
  fst (Speech.thread_finished false (fst (Speech.check_and_restart_listening m))).

End App.

(** ** Sample inputs used to exercise the statements *)

Module Sample.

Definition noon : App.Clock :=
  {| App.stamp := "2024-05-01 12:00:00";
     App.time_ap := "12:00 PM";
     App.date_long := "Wednesday, May 1, 2024" |}.

(** The application right after [__init__], on the default configuration
    and with a microphone. *)
Definition fresh : App.t := App.init Config.create_default_config true.

(** A spoken request answered while listening is on: the microphone
    button opens a session, the capture thread recognizes "computer
    time" and leaves, and the engine starts to speak the answer.  The
    restart timer of the session is still pending. *)
Definition answer_while_listening : list App.Input :=
  [ App.MicButtonClicked;
    App.TextRecognized noon "computer time";
    App.ThreadFinished false;
    App.SpeechEngineStarted ].


End Sample.

(** ** The specification's sentences, read over the embedding

  These follow the wording of the specification, not the code; they are
  what the code is compared against below. *)

Module SpecReading.
Import App.

(** "While in Suspended, no capture session may be started by any path
    until a speechOutputFinished signal is received." *)
Definition no_capture_while_suspended : Prop :=
  forall a i,
    reachable a -> suspended a = true -> i <> SpeechEngineFinished ->
    sessions_started (step i a) = sessions_started a.


(** "input exit: system command path taken, confirmation message emitted,
    process-termination scheduled after a fixed delay, no intent
    classification or collaborator dispatch occurs." *)
Definition exit_scenario (now : Clock) (a : t) : Prop :=
  let es := new_effects a (process_command now (Some "exit") a) in
  In (UpdateResponse "Shutting down. Goodbye!") es /\
  (exists ms, In (SingleShot ms AppQuit) es) /\
  existsb is_classification es = false /\
  existsb is_dispatch es = false.

(** "intent_frequency() maintains a running count per IntentTag,
    incremented on every record call". *)
Definition frequency_follows_record (now : Clock) (text : string) (a : t) : Prop :=
  let a' := process_command now (Some text) a in
  let tag := Intent.get_command_intent text in
  (exists h, command_history a' = (h ++ [record_of (now, text)])%list) ->
  (intent_count a' tag = intent_count a tag + 1)%Z.

End SpecReading.

(** ** Writing the configuration ([AppConfig.set], [AppConfig.get_all]) *)

Module ConfigStore.

(** [set(section, key, value)]: the section is created when missing, the
    key is written, and the outcome of [save_config] (which catches its
    own exceptions and answers a boolean) is returned; [saved] is that
    outcome, decided by the file system. *)
Definition set (cfg : gmap string (gmap string Config.pyval))
    (section key : string) (value : Config.pyval) (saved : bool)
    : gmap string (gmap string Config.pyval) * bool :=
  let cfg1 :=
    match cfg !! section with
    | Some _ => cfg
    | None => <[section := ∅]> cfg
    end in
  let sec := match cfg1 !! section with Some d => d | None => ∅ end in
  (<[section := <[key := value]> sec]> cfg1, saved).

Definition get_all (cfg : gmap string (gmap string Config.pyval))
    : gmap string (gmap string Config.pyval) := cfg.

End ConfigStore.

(** ** JSON values, with the Python operations the REST clients apply *)

Module Json.

Local Unset Elimination Schemes.

Inductive json :=
| JNull
| JBool (b : bool)
| JInt (z : Z)
| JFloat (num : Z) (den : positive)
| JStr (s : string)
| JList (items : list json)
| JDict (fields : list (string * json)).

Local Set Elimination Schemes.

(** [if x:]. *)
Definition truthy (x : json) : bool :=
  match x with
  | JNull => false
  | JBool b => b
  | JInt z => negb (z =? 0)%Z
  | JFloat n _ => negb (n =? 0)%Z
  | JStr s => PyStr.truthy s
  | JList items => match items with [] => false | _ :: _ => true end
  | JDict fields => match fields with [] => false | _ :: _ => true end
  end.

(** The value stored under a key of a dictionary. *)
Fixpoint assoc (key : string) (fields : list (string * json)) : option json :=
  match fields with
  | [] => None
  | (k, v) :: rest => if String.eqb k key then Some v else assoc key rest
  end.

(** In the four operations below [None] stands for a raised exception
    ([AttributeError], [IndexError], [KeyError] or [TypeError]). *)

(** [x.get(key, default)]: only dictionaries have the method. *)
Definition get (x : json) (key : string) (dflt : json) : option json :=
  match x with
  | JDict fields =>
      Some (match assoc key fields with Some v => v | None => dflt end)
  | _ => None
  end.

(** [x[i]] for an integer [i >= 0]. *)
Definition index (x : json) (i : nat) : option json :=
  match x with
  | JList items => nth_error items i
  | JStr s =>
      match String.get i s with
      | Some c => Some (JStr (String c EmptyString))
      | None => None
      end
  | _ => None
  end.

(** [x[key]] for a string key. *)
Definition item (x : json) (key : string) : option json :=
  match x with
  | JDict fields => assoc key fields
  | _ => None
  end.

(** [key in x] for a string key. *)
Definition has (key : string) (x : json) : option bool :=
  match x with
  | JDict fields =>
      Some (match assoc key fields with Some _ => true | None => false end)
  | JList items =>
      Some (existsb (fun e => match e with
                              | JStr s => String.eqb s key
                              | _ => false
                              end) items)
  | JStr s => Some (PyStr.contains key s)
  | _ => None
  end.

(** [len(x)]. *)
Definition len (x : json) : option nat :=
  match x with
  | JList items => Some (length items)
  | JStr s => Some (String.length s)
  | JDict fields => Some (length fields)
  | _ => None
  end.

(** A configuration scalar as a JSON value. *)
Definition of_pyval (v : Config.pyval) : json :=
  match v with
  | Config.PNone => JNull
  | Config.PBool b => JBool b
  | Config.PInt z => JInt z
  | Config.PFloat n d => JFloat n d
  | Config.PStr s => JStr s
  end.

(** Sequencing of operations that may raise. *)
Definition bind {A B : Type} (x : option A) (f : A -> option B) : option B :=
  match x with
  | Some a => f a
  | None => None
  end.

End Json.

(** ** The weather client ([modules/weather_module.py]) *)

Module Weather.
Import Json.

(** What an HTTP request ends in: a decoded body, or any exception
    ([requests] errors, [raise_for_status], a body that is not JSON). *)
Inductive HttpOutcome :=
| HttpJson (body : json)
| HttpRaises.

Record Env := {
  api_key : option string;
  current : HttpOutcome;        (* GET /weather *)
  forecast : HttpOutcome        (* GET /forecast *)
}.

Definition has_key (env : Env) : bool :=
  match api_key env with
  | Some k => PyStr.truthy k
  | None => false
  end.

Definition _get_dummy_weather : json :=
  JDict
    [ ("name", JStr "Example City");
      ("main", JDict [ ("temp", JInt 20); ("feels_like", JInt 19);
                       ("temp_min", JInt 18); ("temp_max", JInt 22);
                       ("humidity", JInt 70) ]);
      ("weather", JList [ JDict [ ("main", JStr "Clear");
                                  ("description", JStr "clear sky") ] ]);
      ("wind", JDict [ ("speed", JFloat 7 2) ]) ].

(** [get_current_weather(city=city, units=units)], [lat] and [lon] left
    at [None]. *)
Definition get_current_weather (env : Env) (city : json) : json :=
  if negb (has_key env) then _get_dummy_weather
  else if truthy city then
    match current env with
    | HttpJson body => body
    | HttpRaises => _get_dummy_weather
    end
  else _get_dummy_weather.

(** [get_forecast(city=city, units=units, days=1)]; [JNull] is [None]. *)
Definition get_forecast (env : Env) (city : json) : json :=
  if negb (has_key env) then JNull
  else if truthy city then
    match forecast env with
    | HttpJson body => body
    | HttpRaises => JNull
    end
  else JNull.

(** The exceptions the outer [except] of [get_weather] can catch. *)
Inductive Exn :=
| FailedToRetrieve             (* raise Exception("Failed to retrieve weather data") *)
| BadShape                     (* an operation on data of the wrong shape *)
| FromCallback (msg : string). (* raised by the callback *)

Record Info := {
  success : bool;
  location : json;
  temperature : json;
  description : json;
  full_data : option json;
  forecast_text : option json;     (* the key "forecast", when present *)
  error : option Exn
}.

(** [x.get('weather', [{}])[0].get('description', 'N/A')]. *)
Definition first_description (x : json) : option json :=
  bind (get x "weather" (JList [JDict []])) (fun w =>
  bind (index w 0) (fun w0 =>
  get w0 "description" (JStr "N/A"))).

(** The inner [try] block: the description of entry 4 of the forecast
    list, or nothing when a condition fails or anything raises. *)
Definition tomorrow_forecast (forecast_data : json) : option json :=
  if truthy forecast_data then
    bind (has "list" forecast_data) (fun present =>
    if present then
      bind (item forecast_data "list") (fun entries =>
      bind (len entries) (fun n =>
      if (0 <? n)%nat then
        bind (index entries 4) first_description
      else None))
    else None)
  else None.

(** The [try] block up to the callback: the result, or the exception. *)
Definition weather_info (env : Env) (loc : json) : Info + Exn :=
  let weather_data := get_current_weather env loc in
  if negb (truthy weather_data) then inr FailedToRetrieve
  else
    match bind (get weather_data "main" (JDict [])) (fun m =>
                get m "temp" (JStr "N/A")),
          first_description weather_data with
    | Some temp, Some descr =>
        inl {| success := true; location := loc;
               temperature := temp; description := descr;
               full_data := Some weather_data;
               forecast_text := tomorrow_forecast (get_forecast env loc);
               error := None |}
    | _, _ => inr BadShape
    end.

Definition error_response (loc : json) (e : Exn) : Info :=
  {| success := false; location := loc;
     temperature := JInt 20; description := JStr "clear sky";
     full_data := None; forecast_text := None;
     error := Some e |}.

(** How a call ends: with a returned dictionary, or with the exception a
    second failing callback lets through. *)
Inductive outcome :=
| Returned (info : Info)
| Propagated (msg : string).

Section WithCallback.
Context {S : Type}.

Definition Callback : Type := Info -> S -> S * option string.

Definition fail_with (loc : json) (callback : option Callback) (e : Exn) (s : S)
    : S * outcome :=
  let err := error_response loc e in
  match callback with
  | Some cb =>
      match cb err s with
      | (s2, None) => (s2, Returned err)
      | (s2, Some e2) => (s2, Propagated e2)
      end
  | None => (s, Returned err)
  end.

Definition get_weather (env : Env) (loc : json) (callback : option Callback) (s : S)
    : S * outcome :=
  match weather_info env loc with
  | inr e => fail_with loc callback e s
  | inl info =>
      match callback with
      | Some cb =>
          match cb info s with
          | (s1, None) => (s1, Returned info)
          | (s1, Some msg) => fail_with loc callback (FromCallback msg) s1
          end
      | None => (s, Returned info)
      end
  end.

(** A callback instrumented to keep what it is handed, in order. *)
Definition recording (cb : Callback)
    : Info -> S * list Info -> (S * list Info) * option string :=
  fun info sl =>
    let '(s', e) := cb info (fst sl) in ((s', (snd sl ++ [info])%list), e).

End WithCallback.

End Weather.

(** ** The news client ([modules/news_module.py]) *)

Module News.
Import Json.

Record Env := {
  api_key : option string;
  (** GET /top-headlines for a country, a category and a page size. *)
  headlines : Config.pyval -> string -> Config.pyval -> Weather.HttpOutcome;
  now_iso : string                (* datetime.now().isoformat() *)
}.

Definition has_key (env : Env) : bool :=
  match api_key env with
  | Some k => PyStr.truthy k
  | None => false
  end.

Definition _get_dummy_headlines (env : Env) : json :=
  JList
    [ JDict [ ("title", JStr "Sample News Headline 1");
              ("description", JStr "This is a placeholder news article description.");
              ("url", JStr "https://example.com/news/1");
              ("publishedAt", JStr (now_iso env));
              ("source", JDict [("name", JStr "Sample News Source")]) ];
      JDict [ ("title", JStr "Sample News Headline 2");
              ("description", JStr "Another placeholder news article for demonstration.");
              ("url", JStr "https://example.com/news/2");
              ("publishedAt", JStr (now_iso env));
              ("source", JDict [("name", JStr "Sample News Source")]) ] ].

Definition get_headlines (env : Env)
    (country : Config.pyval) (category : string) (count : Config.pyval) : json :=
  if negb (has_key env) then _get_dummy_headlines env
  else
    match headlines env country category count with
    | Weather.HttpJson data =>
        match get data "articles" (JList []) with
        | Some articles => articles
        | None => _get_dummy_headlines env
        end
    | Weather.HttpRaises => _get_dummy_headlines env
    end.

Record Info := {
  success : bool;
  category : string;
  articles : json;
  error : option string
}.

Inductive outcome :=
| Returned (info : Info)
| Propagated (msg : string).

Section WithCallback.
Context {S : Type}.

Definition Callback : Type := Info -> S -> S * option string.

Definition news_info (env : Env) (cfg : gmap string (gmap string Config.pyval))
    (cat : string) : Info :=
  let country := Config.get cfg "news" "default_country" (Config.PStr "us") in
  let count := Config.get cfg "news" "article_count" (Config.PInt 5) in
  {| success := true; category := cat;
     articles := get_headlines env country cat count;
     error := None |}.

Definition get_news (env : Env) (cfg : gmap string (gmap string Config.pyval))
    (cat : string) (callback : option Callback) (s : S) : S * outcome :=
  let info := news_info env cfg cat in
  match callback with
  | Some cb =>
      match cb info s with
      | (s1, None) => (s1, Returned info)
      | (s1, Some msg) =>
          let err := {| success := false; category := cat;
                        articles := _get_dummy_headlines env;
                        error := Some msg |} in
          match cb err s1 with
          | (s2, None) => (s2, Returned err)
          | (s2, Some e2) => (s2, Propagated e2)
          end
      end
  | None => (s, Returned info)
  end.

End WithCallback.

End News.

(** ** The AI module's own intent recognition ([AIModule.process_command]) *)

Module AIIntent.
Import PyStr.

(** [s.split(sep)] for a non-empty separator, scanning left to right:
    [skip] counts the characters of a matched separator still to drop,
    [cur] is the piece being read. *)
Fixpoint split_aux (sep : string) (skip : nat) (cur : string) (s : string)
    : list string :=
  match s with
  | EmptyString => [cur]
  | String c r =>
      match skip with
      | S k => split_aux sep k cur r
      | O =>
          if startswith s sep
          then cur :: split_aux sep (String.length sep - 1) EmptyString r
          else split_aux sep 0 (cur ++ String c EmptyString) r
      end
  end.

Definition split (sep s : string) : list string := split_aux sep 0 EmptyString s.

Definition _extract_location (text : string) : option string :=
  if contains "in " text then
    let parts := split "in " text in
    if (1 <? length parts)%nat then
      Some (hd EmptyString (split " " (strip (nth 1 parts EmptyString))))
    else None
  else None.

Definition categories : list string :=
  ["business"; "entertainment"; "general"; "health";
   "science"; "sports"; "technology"].

Definition _extract_category (text : string) : option string :=
  find (fun category => contains category (lower text)) categories.

(** The [params] dictionary of the result. *)
Inductive Params :=
| Location (loc : option string)
| Category (cat : option string)
| NoParams
| Query (q : string).

Definition process_command (command : string) : string * Params :=
  let command := lower command in
  if any_in ["weather"; "temperature"; "forecast"] command then
    ("weather", Location (_extract_location command))
  else if any_in ["news"; "headlines"; "articles"] command then
    ("news", Category (_extract_category command))
  else if any_in ["time"; "date"; "day"] command then
    ("time", NoParams)
  else ("general", Query command).

End AIIntent.

(** ** Counting effects *)

Module Observe.

Definition is_speak (e : Effect) : bool :=
  match e with SpeakTask _ => true | _ => false end.

Definition is_thread_start (e : Effect) : bool :=
  match e with ThreadStart => true | _ => false end.

Definition is_listening_started (e : Effect) : bool :=
  match e with ListeningStarted => true | _ => false end.

Definition is_restart_timer (e : Effect) : bool :=
  match e with SingleShot _ CheckAndRestartListening => true | _ => false end.

Definition is_quit_timer (e : Effect) : bool :=
  match e with SingleShot _ AppQuit => true | _ => false end.

Definition count (p : Effect -> bool) (es : list Effect) : nat :=
  length (List.filter p es).

Definition is_raised (e : Effect) : bool :=
  match e with Raised _ => true | _ => false end.

(** Every start of listening that was announced either began a capture
    session or ended in an exception, and every capture session got one
    restart timer; with a microphone nothing is raised, and without one
    no capture session begins. *)
Definition balanced (mic : bool) (es : list Effect) : bool :=
  (count is_listening_started es =?
   count is_thread_start es + count is_raised es)%nat &&
  (count is_thread_start es =? count is_restart_timer es)%nat &&
  (if mic then count is_raised es =? 0 else count is_thread_start es =? 0)%nat.

End Observe.

(** * Properties *)

(** ** Facts about the string primitives *)

Module PyStrFacts.
Import PyStr.

Lemma startswith_iff (p s : string) :
  startswith s p = true <-> exists post, s = p ++ post.
Proof.
  revert s; induction p as [|a p IH]; intros s; simpl.
  - split; [intros _; now exists s | reflexivity].
  - destruct s as [|b s].
    + split; [discriminate | intros [post H]; discriminate].
    + destruct (Ascii.eqb_spec a b) as [->|Hne].
      * rewrite IH. split; intros [post H]; exists post.
        -- now rewrite H.
        -- now injection H.
      * split; [discriminate | intros [post H]; injection H; congruence].
Qed.

Lemma contains_iff (k s : string) :
  contains k s = true <-> Substring k s.
Proof.
  split.
  - induction s as [|c s IH]; simpl; rewrite orb_true_iff; intros [H|H].
    + apply startswith_iff in H as [post ->]. now exists "", post.
    + discriminate.
    + apply startswith_iff in H as [post ->]. now exists "", post.
    + destruct (IH H) as (pre & post & ->). now exists (String c pre), post.
  - intros (pre & post & ->).
    induction pre as [|c pre IH]; simpl.
    + assert (H : startswith (k ++ post) k = true)
        by (apply startswith_iff; now exists post).
      destruct (k ++ post); simpl; rewrite orb_true_iff; now left.
    + rewrite orb_true_iff; right. exact IH.
Qed.

Lemma any_in_iff (words : list string) (text : string) :
  any_in words text = true <-> exists w, In w words /\ Substring w text.
Proof.
  unfold any_in. rewrite existsb_exists.
  split; intros (w & Hin & H); exists w; split; auto; now apply contains_iff.
Qed.

Lemma lower_upper_char (c : ascii) : lower_char (upper_char c) = lower_char c.
Proof. destruct c as [[] [] [] [] [] [] [] []]; reflexivity. Qed.

Lemma lower_lower_char (c : ascii) : lower_char (lower_char c) = lower_char c.
Proof. destruct c as [[] [] [] [] [] [] [] []]; reflexivity. Qed.

Lemma lower_upper (s : string) : lower (upper s) = lower s.
Proof.
  induction s as [|c s IH]; [reflexivity|].
  unfold lower, upper in *; simpl. now rewrite lower_upper_char, IH.
Qed.

Lemma lower_idem (s : string) : lower (lower s) = lower s.
Proof.
  induction s as [|c s IH]; [reflexivity|].
  unfold lower in *; simpl. now rewrite lower_lower_char, IH.
Qed.

End PyStrFacts.

(** ** Intent classification *)

Module IntentFacts.
Import PyStr PyStrFacts Intent.

Lemma mentions_iff (words : list string) (text : string) :
  mentions words text <-> any_in words (lower text) = true.
Proof. unfold mentions. now rewrite any_in_iff. Qed.

Lemma not_mentions_iff (words : list string) (text : string) :
  ~ mentions words text <-> any_in words (lower text) = false.
Proof. rewrite mentions_iff. now destruct (any_in words (lower text)). Qed.

Lemma get_command_intent_lower (t1 t2 : string) :
  lower t1 = lower t2 -> get_command_intent t1 = get_command_intent t2.
Proof. unfold get_command_intent. now intros ->. Qed.

(** C6.  [get_command_intent] is a function of the lowered text only
    (so matching ignores case), always answers one of the six tags, and
    answers the first tag, in the order weather, news, reminder, time,
    help, whose keyword set the text mentions; a text that mentions a
    weather keyword is classified weather (whatever else it mentions),
    and a text that mentions no keyword is classified general. *)
Theorem get_command_intent_priority (text : string) :
  let r := get_command_intent text in
  (mentions weather_words text -> r = "weather") /\
  (~ mentions weather_words text -> mentions news_words text -> r = "news") /\
  (~ mentions weather_words text -> ~ mentions news_words text ->
     mentions reminder_words text -> r = "reminder") /\
  (~ mentions weather_words text -> ~ mentions news_words text ->
     ~ mentions reminder_words text -> mentions time_words text -> r = "time") /\
  (~ mentions weather_words text -> ~ mentions news_words text ->
     ~ mentions reminder_words text -> ~ mentions time_words text ->
     mentions help_words text -> r = "help") /\
  (~ mentions weather_words text -> ~ mentions news_words text ->
     ~ mentions reminder_words text -> ~ mentions time_words text ->
     ~ mentions help_words text -> r = "general") /\
  In r ["weather"; "news"; "reminder"; "time"; "help"; "general"] /\
  (forall text', lower text' = lower text -> get_command_intent text' = r) /\
  get_command_intent (upper text) = r /\
  get_command_intent (lower text) = r.
Proof.
  cbv zeta.
  rewrite !not_mentions_iff, !mentions_iff.
  unfold get_command_intent.
  repeat split.
  - now intros ->.
  - now intros -> ->.
  - now intros -> -> ->.
  - now intros -> -> -> ->.
  - now intros -> -> -> -> ->.
  - now intros -> -> -> -> ->.
  - repeat (match goal with
            | |- context [if ?b then _ else _] => destruct b
            end; [simpl; tauto|]).
    simpl; tauto.
  - now intros text' ->.
  - now rewrite lower_upper.
  - now rewrite lower_idem.
Qed.

(** The theorem at two texts: a shouted weather question, and a text
    without any keyword. *)
Lemma get_command_intent_priority_witness :
  get_command_intent "What's the WEATHER in Paris" = "weather" /\
  get_command_intent "Tell me a joke" = "general".
Proof.
  split.
  - apply (proj1 (get_command_intent_priority "What's the WEATHER in Paris")).
    exists "weather". split; [now left|].
    exists "what's the ", " in paris". reflexivity.
  - apply (proj1 (proj2 (proj2 (proj2 (proj2 (proj2
             (get_command_intent_priority "Tell me a joke")))))));
      apply not_mentions_iff; reflexivity.
Defined.

End IntentFacts.


(** ** Frame properties of the application's methods *)

Module AppFacts.
Import PyStr App.

(** Reduce projections of updated states, and nothing else. *)
Ltac proj_simpl :=
  cbn [config speech_module tts_module command_history max_history_size
       recent_intents is_listening_enabled log
       emit set_speech_module set_tts_module set_command_history
       set_recent_intents set_is_listening_enabled fst snd] in *.

Ltac break_match :=
  match goal with
  | |- context [match ?x with _ => _ end] =>
      match x with
      | context [match _ with _ => _ end] => fail 1
      | _ => destruct x eqn:?
      end
  end.

Ltac unfold_methods :=
  unfold step, on_speech_recognized, process_command, process_system_command,
    execute_direct_command, show_command_history, show_help,
    process_weather_command, process_news_command, process_reminder_command,
    update_intent_frequency, add_to_command_history,
    handle_weather_response, handle_news_response, handle_ai_response,
    handle_close_event, on_start, on_finish, resume_listening_after_tts,
    enable_listening, disable_listening, run,
    handle_assistant_response, on_speech_module,
    Speech.start_listening, Speech.stop_listening,
    Speech.check_and_restart_listening, Speech.thread_finished in *.

(** Close a goal about fields a method does not touch. *)
Ltac frame := intros; unfold_methods; repeat break_match; proj_simpl;
              try reflexivity; try congruence.

Lemma log_emit es a : log (emit es a) = (log a ++ es)%list.
Proof. reflexivity. Qed.

Lemma new_effects_app a b es :
  log b = (log a ++ es)%list -> new_effects a b = es.
Proof.
  unfold new_effects. intros ->.
  rewrite skipn_app, skipn_all, Nat.sub_diag. reflexivity.
Qed.

(** *** The history *)

Lemma add_to_command_history_history now cmd a :
  command_history (add_to_command_history now cmd a) =
  let h := (command_history a ++ [record_of (now, cmd)])%list in
  if (max_history_size a <? length h)%nat then tl h else h.
Proof. unfold add_to_command_history. proj_simpl. now destruct (_ <? _)%nat. Qed.

Lemma add_to_command_history_max now cmd a :
  max_history_size (add_to_command_history now cmd a) = max_history_size a.
Proof. frame. Qed.

Lemma add_to_command_history_intents now cmd a :
  recent_intents (add_to_command_history now cmd a) = recent_intents a.
Proof. frame. Qed.

Lemma add_to_command_history_log now cmd a :
  log (add_to_command_history now cmd a) = (log a ++ [GetCommandIntent cmd])%list.
Proof. frame. Qed.

Lemma process_system_command_history now text a :
  command_history (snd (process_system_command now text a)) = command_history a.
Proof. frame. Qed.

Lemma process_system_command_intents now text a :
  recent_intents (snd (process_system_command now text a)) = recent_intents a.
Proof. frame. Qed.

Lemma process_system_command_max now text a :
  max_history_size (snd (process_system_command now text a)) = max_history_size a.
Proof. frame. Qed.


Lemma process_system_command_tts now text a :
  tts_module (snd (process_system_command now text a)) = tts_module a.
Proof. frame. Qed.

(** Whether a text is taken by the system-command path depends on the
    text alone. *)
Lemma process_system_command_handled now now' text a a' :
  fst (process_system_command now text a) =
  fst (process_system_command now' text a').
Proof. frame. Qed.

Lemma process_command_history now c t a :
  command_history (process_command now (Some (String c t)) a) =
  command_history (add_to_command_history now (String c t) a).
Proof.
  unfold process_command.
  destruct (process_system_command now (String c t) _) as [handled a'] eqn:E.
  assert (H : command_history a' =
              command_history (add_to_command_history now (String c t) a)).
  { change a' with (snd (handled, a')). rewrite <- E.
    rewrite process_system_command_history. frame. }
  destruct handled; [exact H|]. rewrite <- H. frame.
Qed.

Lemma process_command_max now text a :
  max_history_size (process_command now text a) = max_history_size a.
Proof.
  destruct text as [[|c t]|]; [frame| |frame].
  unfold process_command.
  destruct (process_system_command now (String c t) _) as [handled a'] eqn:E.
  assert (H : max_history_size a' = max_history_size a).
  { change a' with (snd (handled, a')). rewrite <- E.
    rewrite process_system_command_max. frame. }
  destruct handled; [exact H|]. rewrite <- H. frame.
Qed.


Lemma process_command_tts now text a :
  tts_module (process_command now text a) = tts_module a.
Proof.
  destruct text as [[|c t]|]; [frame| |frame].
  unfold process_command.
  destruct (process_system_command now (String c t) _) as [handled a'] eqn:E.
  assert (H : tts_module a' = tts_module a).
  { change a' with (snd (handled, a')). rewrite <- E.
    rewrite process_system_command_tts. frame. }
  destruct handled; [exact H|]. rewrite <- H. frame.
Qed.

(** [TextRecognized] either does nothing or runs [process_command] after
    one window update. *)
Lemma step_text_recognized now text a :
  step (TextRecognized now text) a = a \/
  exists c t, text = String c t /\
    step (TextRecognized now text) a =
    process_command now (Some text)
      (emit [UpdateResponse ("You said: " ++ text ++ nl ++ nl ++ "Processing...")] a).
Proof.
  cbn [step]. destruct (truthy text && truthy (strip text)); [|now left].
  destruct text as [|c t]; [now left|]. right. now exists c, t.
Qed.

Lemma step_max_history_size i a :
  max_history_size (step i a) = max_history_size a.
Proof.
  destruct i as [ | |now text|now text| | | | | | | | ];
    [ | | apply process_command_max
    | destruct (step_text_recognized now text a) as [->|(c & t & _ & ->)];
      [reflexivity | now rewrite process_command_max]
    | .. ]; frame.
Qed.

Lemma step_history_cases i a :
  command_history (step i a) = command_history a \/
  exists now cmd,
    command_history (step i a) =
    command_history (add_to_command_history now cmd a).
Proof.
  destruct i as [ | |now text|now text| | | | | | | | ];
    [ | | destruct text as [[|c t]|];
          [ left; frame
          | right; exists now, (String c t); apply process_command_history
          | left; frame ]
    | destruct (step_text_recognized now text a) as [->|(c & t & -> & ->)];
      [ now left
      | right; exists now, (String c t); rewrite process_command_history; frame ]
    | .. ]; left; frame.
Qed.

Lemma add_to_command_history_bounded now cmd a :
  length (command_history a) <= max_history_size a ->
  length (command_history (add_to_command_history now cmd a)) <= max_history_size a.
Proof.
  intros H. rewrite add_to_command_history_history. cbv zeta.
  destruct (Nat.ltb_spec (max_history_size a)
              (length (command_history a ++ [record_of (now, cmd)]))) as [Hlt|Hge].
  - destruct (command_history a); simpl in *.
    + lia.
    + rewrite length_app in *. simpl in *. lia.
  - exact Hge.
Qed.

Lemma exec_history_bounded inputs a :
  length (command_history a) <= max_history_size a ->
  length (command_history (exec inputs a)) <= max_history_size a /\
  max_history_size (exec inputs a) = max_history_size a.
Proof.
  revert a; induction inputs as [|i inputs IH]; intros a H; [now split|].
  cbn [exec fold_left]. fold (exec inputs (step i a)).
  assert (Hs : length (command_history (step i a)) <= max_history_size (step i a)).
  { rewrite step_max_history_size.
    destruct (step_history_cases i a) as [->|(now & cmd & ->)]; [exact H|].
    now apply add_to_command_history_bounded. }
  destruct (IH _ Hs) as [H1 H2]. rewrite step_max_history_size in *. now split.
Qed.

Lemma tl_skipn {A} (k : nat) (l : list A) : tl (skipn k l) = skipn (S k) l.
Proof.
  revert l; induction k as [|k IH]; intros [|x l]; try reflexivity.
  simpl. apply IH.
Qed.

Lemma record_all_snoc calls call a :
  record_all (calls ++ [call]) a =
  add_to_command_history (fst call) (snd call) (record_all calls a).
Proof. unfold record_all. now rewrite fold_left_app. Qed.

Lemma record_all_max calls a :
  max_history_size (record_all calls a) = max_history_size a.
Proof.
  induction calls as [|call calls IH] using rev_ind; [reflexivity|].
  now rewrite record_all_snoc, add_to_command_history_max.
Qed.

End AppFacts.

(** ** The command history and the input guard *)

Module HistoryFacts.
Import App AppFacts.

Lemma skipn_snoc {A} (k : nat) (l : list A) (x : A) :
  k <= length l -> skipn k (l ++ [x]) = (skipn k l ++ [x])%list.
Proof.
  intros H. rewrite skipn_app. replace (k - length l) with 0 by lia. reflexivity.
Qed.

(** After any number of calls the history holds the last
    [max_history_size] records, in call order. *)
Lemma record_all_history calls a :
  command_history a = [] ->
  command_history (record_all calls a) =
  skipn (length calls - max_history_size a) (map record_of calls).
Proof.
  intros Hnil.
  induction calls as [|call calls IH] using rev_ind.
  - simpl. exact Hnil.
  - rewrite record_all_snoc, add_to_command_history_history, record_all_max, IH.
    cbv zeta. rewrite map_app, !length_app, length_skipn, length_map.
    cbn [map length]. destruct call as [now cmd]. cbn [fst snd].
    set (n := length calls). set (mx := max_history_size a).
    assert (Hlen : length (map record_of calls) = n) by apply length_map.
    destruct (Nat.ltb_spec mx (n - (n - mx) + 1)) as [Hlt|Hge].
    + assert (mx <= n) by lia.
      replace (n + 1 - mx) with (S (n - mx)) by lia.
      rewrite <- tl_skipn, !skipn_snoc by lia.
      reflexivity.
    + replace (n - mx) with 0 by lia.
      replace (n + 1 - mx) with 0 by lia. reflexivity.
Qed.

(** C5.  The history never holds more than 20 records, whether it is
    fed by [add_to_command_history] alone or by any run of the
    application; after [n] calls it holds the last 20 records in call
    order, so after 25 calls exactly 20 remain, the records of calls 1 to
    5 are gone and the oldest one left is that of call 6. *)
Theorem command_history_bounded_fifo
    (cfg : gmap string (gmap string Config.pyval)) (mic : bool)
    (calls : list (Clock * string)) (inputs : list Input) :
  let h := command_history (record_all calls (init cfg mic)) in
  length h <= 20 /\
  length (command_history (exec inputs (init cfg mic))) <= 20 /\
  h = skipn (length calls - 20) (map record_of calls) /\
  (length calls = 25 ->
     length h = 20 /\
     h = map record_of (skipn 5 calls) /\
     nth_error h 0 = option_map record_of (nth_error calls 5)).
Proof.
  cbv zeta.
  assert (Hh : command_history (record_all calls (init cfg mic)) =
               skipn (length calls - 20) (map record_of calls))
    by (now rewrite record_all_history).
  repeat split.
  - rewrite Hh, length_skipn, length_map. lia.
  - apply (exec_history_bounded inputs (init cfg mic)). simpl. lia.
  - exact Hh.
  - rewrite Hh, length_skipn, length_map. lia.
  - rewrite Hh, H. cbn [Nat.sub]. now rewrite skipn_map.
  - rewrite Hh, H. cbn [Nat.sub].
    now rewrite nth_error_skipn, nth_error_map.
Qed.

(** Twenty-five commands, numbered from 1: the sixth is the oldest kept. *)
Lemma command_history_bounded_fifo_witness :
  length (map (fun i => (Sample.noon, str_nat i)) (seq 1 25)) = 25 /\
  nth_error (command_history
               (record_all (map (fun i => (Sample.noon, str_nat i)) (seq 1 25))
                  Sample.fresh)) 0
  = Some (record_of (Sample.noon, "6")).
Proof.
  split; [reflexivity|].
  destruct (command_history_bounded_fifo Config.create_default_config true
              (map (fun i => (Sample.noon, str_nat i)) (seq 1 25)) [])
    as (_ & _ & _ & H).
  destruct (H eq_refl) as (_ & _ & H6). exact H6.
Defined.

(** C7.  For [None] and for the empty string [process_command] answers
    at once with the fixed request to speak again, shown and spoken
    once, and leaves the history and the intent counts as they were. *)
Theorem empty_input_apology (now : Clock) (a : t) :
  apology_no_input = "I didn't catch that. Could you please speak again?" /\
  process_command now None a = process_command now (Some "") a /\
  let a' := process_command now (Some "") a in
  new_effects a a' = [UpdateResponse apology_no_input; SpeakTask apology_no_input] /\
  command_history a' = command_history a /\
  recent_intents a' = recent_intents a /\
  speech_module a' = speech_module a.
Proof.
  split; [reflexivity|]. split; [reflexivity|]. cbv zeta.
  split; [now apply new_effects_app | repeat split].
Qed.
End HistoryFacts.

(** ** The router: system commands and intent counts *)

Module RouterFacts.
Import PyStr App AppFacts.

Lemma process_command_exit now a :
  process_command now (Some "exit") a =
  emit [SingleShot 2000 AppQuit]
    (handle_assistant_response "Shutting down. Goodbye!"
       (add_to_command_history now "exit" (emit [UpdateResponse "You: exit"] a))).
Proof. reflexivity. Qed.

Lemma process_command_exit_log now a :
  log (process_command now (Some "exit") a) =
  (log a ++ [UpdateResponse "You: exit"; GetCommandIntent "exit";
             UpdateResponse "Shutting down. Goodbye!";
             SpeakTask "Shutting down. Goodbye!";
             SingleShot 2000 AppQuit])%list.
Proof.
  rewrite process_command_exit. unfold handle_assistant_response.
  rewrite !log_emit, add_to_command_history_log, log_emit.
  now rewrite <- !app_assoc.
Qed.

(** C3, as the specification words it, fails on a fresh application:
    the history record written for "exit" is classified first. *)
Lemma exit_scenario_counterexample :
  ~ SpecReading.exit_scenario Sample.noon Sample.fresh.
Proof.
  intros (_ & _ & H & _). vm_compute in H. discriminate H.
Qed.

(** C3, amended.  For the input "exit" a history record is appended
    first, and building it classifies the text (as general); then the
    system-command path takes the command and handles it fully: the
    confirmation is shown and spoken, [app.quit] is scheduled after
    2000 ms, and [process_command] returns without its own
    classification step, without touching the intent counts and without
    any call to a collaborator. *)
Theorem exit_command_handled (now : Clock) (a : t) :
  let a' := process_command now (Some "exit") a in
  fst (process_system_command now "exit" a) = true /\
  new_effects a a' =
    [UpdateResponse "You: exit"; GetCommandIntent "exit";
     UpdateResponse "Shutting down. Goodbye!";
     SpeakTask "Shutting down. Goodbye!";
     SingleShot 2000 AppQuit] /\
  command_history a' = command_history (add_to_command_history now "exit" a) /\
  record_of (now, "exit") =
    {| command := "exit"; timestamp := stamp now; intent := "general" |} /\
  recent_intents a' = recent_intents a /\
  speech_module a' = speech_module a /\
  existsb is_dispatch (new_effects a a') = false.
Proof.
  cbv zeta.
  assert (Hlog := process_command_exit_log now a).
  apply new_effects_app in Hlog. rewrite Hlog.
  repeat split.
  - apply process_command_history.
  - rewrite process_command_exit. frame.
  - rewrite process_command_exit. frame.
Qed.

(** *** Intent counts *)

Lemma update_intent_frequency_same tag a :
  intent_count (update_intent_frequency tag a) tag = (intent_count a tag + 1)%Z.
Proof.
  unfold intent_count, update_intent_frequency.
  destruct (recent_intents a !! tag) eqn:E; proj_simpl;
    now rewrite lookup_insert_eq.
Qed.

Lemma update_intent_frequency_other tag tag' a :
  tag' <> tag ->
  intent_count (update_intent_frequency tag a) tag' = intent_count a tag'.
Proof.
  intros Hne. unfold intent_count, update_intent_frequency.
  destruct (recent_intents a !! tag) eqn:E; proj_simpl;
    now rewrite lookup_insert_ne.
Qed.

Lemma update_intent_frequency_ext tag a b :
  recent_intents a = recent_intents b ->
  recent_intents (update_intent_frequency tag a) =
  recent_intents (update_intent_frequency tag b).
Proof.
  intros H. unfold update_intent_frequency. rewrite H.
  now destruct (recent_intents b !! tag).
Qed.

(** The counts after a non-empty command. *)
Lemma process_command_intents now c t a :
  recent_intents (process_command now (Some (String c t)) a) =
  if fst (process_system_command now (String c t) a)
  then recent_intents a
  else recent_intents
         (update_intent_frequency (Intent.get_command_intent (String c t)) a).
Proof.
  unfold process_command.
  rewrite (process_system_command_handled now now (String c t) a
             (add_to_command_history now (String c t)
                (emit (add_user_message (String c t)) a))).
  destruct (process_system_command now (String c t) _) as [handled a'] eqn:E.
  assert (H : recent_intents a' = recent_intents a).
  { change a' with (snd (handled, a')). rewrite <- E.
    rewrite process_system_command_intents. frame. }
  cbn [fst]. destruct handled; [exact H|].
  rewrite <- (update_intent_frequency_ext _ (emit [GetCommandIntent (String c t)] a') a)
    by exact H.
  generalize (update_intent_frequency (Intent.get_command_intent (String c t))
                (emit [GetCommandIntent (String c t)] a')).
  intros b. frame.
Qed.

Lemma step_intents_cases i a :
  recent_intents (step i a) = recent_intents a \/
  exists tag,
    recent_intents (step i a) = recent_intents (update_intent_frequency tag a).
Proof.
  destruct i as [ | |now text|now text| | | | | | | | ];
    [ | | destruct text as [[|c t]|];
          [ left; frame
          | cbn [step]; rewrite process_command_intents;
            destruct (fst _); [now left | right; eauto]
          | left; frame ]
    | destruct (step_text_recognized now text a) as [->|(c & t & -> & ->)];
      [ now left
      | rewrite process_command_intents;
        rewrite (process_system_command_handled now now (String c t) _ a);
        destruct (fst _); [now left | right; eexists;
          apply update_intent_frequency_ext; reflexivity] ]
    | .. ]; left; frame.
Qed.

Lemma intent_count_ext a b tag :
  recent_intents a = recent_intents b -> intent_count a tag = intent_count b tag.
Proof. unfold intent_count. now intros ->. Qed.

Lemma step_intent_count_mono i a tag :
  (intent_count a tag <= intent_count (step i a) tag)%Z.
Proof.
  destruct (step_intents_cases i a) as [H|[tag' H]];
    rewrite (intent_count_ext _ _ tag H); [lia|].
  destruct (decide (tag = tag')) as [->|Hne].
  - rewrite update_intent_frequency_same. lia.
  - rewrite update_intent_frequency_other by exact Hne. lia.
Qed.

(** C4, as the specification words it, fails for "exit": a record is
    appended and no count moves. *)
Lemma frequency_follows_record_counterexample :
  ~ SpecReading.frequency_follows_record Sample.noon "exit" Sample.fresh.
Proof.
  intros H. unfold SpecReading.frequency_follows_record in H. cbv zeta in H.
  assert (E : exists h, command_history
                          (process_command Sample.noon (Some "exit") Sample.fresh)
                        = (h ++ [record_of (Sample.noon, "exit")])%list)
    by (now exists []).
  specialize (H E). vm_compute in H. discriminate H.
Qed.

(** C4, amended.  Every non-empty command appends one record.  The count
    of its intent tag goes up by exactly one, and no other count moves,
    when the system-command path does not take the command; when it
    does, no count moves.  No input of the application ever lowers or
    removes a count. *)
Theorem intent_frequency_updates (now : Clock) (c : ascii) (t : string) (a : App.t) :
  let text := String c t in
  let a' := process_command now (Some text) a in
  let tag := Intent.get_command_intent text in
  command_history a' = command_history (add_to_command_history now text a) /\
  (fst (process_system_command now text a) = true ->
     recent_intents a' = recent_intents a) /\
  (fst (process_system_command now text a) = false ->
     intent_count a' tag = (intent_count a tag + 1)%Z /\
     forall tag', tag' <> tag -> intent_count a' tag' = intent_count a tag') /\
  (forall i tag', (intent_count a tag' <= intent_count (step i a) tag')%Z).
Proof.
  cbv zeta. split; [apply process_command_history|].
  pose proof (process_command_intents now c t a) as H.
  split; [|split].
  - intros E. now rewrite E in H.
  - intros E. rewrite E in H. split.
    + rewrite (intent_count_ext _ _ _ H). apply update_intent_frequency_same.
    + intros tag' Hne. rewrite (intent_count_ext _ _ _ H).
      now apply update_intent_frequency_other.
  - intros i tag'. apply step_intent_count_mono.
Qed.

(** The theorem at a command the router dispatches and at one the
    system-command path takes. *)
Lemma intent_frequency_updates_witness :
  intent_count (process_command Sample.noon (Some "Tell me a joke") Sample.fresh)
    "general" = 1%Z /\
  recent_intents (process_command Sample.noon (Some "exit") Sample.fresh) = ∅.
Proof.
  split.
  - destruct (intent_frequency_updates Sample.noon "T" "ell me a joke" Sample.fresh)
      as (_ & _ & H & _).
    destruct (H eq_refl) as [H1 _]. exact H1.
  - destruct (intent_frequency_updates Sample.noon "e" "xit" Sample.fresh)
      as (_ & H & _).
    exact (H eq_refl).
Defined.

End RouterFacts.

(** ** Turn taking: capture sessions, auto-restart, speech output *)

Module TurnFacts.
Import PyStr App AppFacts.

(** *** The capture module on its own *)

Lemma start_listening_running m :
  Speech.thread_running m = true -> Speech.start_listening m = (m, []).
Proof. unfold Speech.start_listening. now intros ->. Qed.

Lemma start_listening_idle m :
  Speech.thread_running m = false -> Speech.microphone m = true ->
  Speech.start_listening m =
  ({| Speech.speech_thread :=
        Some {| Speech.is_running := true; Speech.stop_event := false |};
      Speech.timeout_count := 0;
      Speech.max_timeouts := Speech.max_timeouts m;
      Speech.microphone := true |},
   [ListeningStarted; ThreadStart; SingleShot 7000 CheckAndRestartListening]).
Proof. unfold Speech.start_listening. now intros -> ->. Qed.

Lemma timeout_rounds_state n :
  Nat.iter (S n) timeout_round (Speech.init true) =
  {| Speech.speech_thread :=
       Some {| Speech.is_running := false; Speech.stop_event := false |};
     Speech.timeout_count := 0;
     Speech.max_timeouts := 3;
     Speech.microphone := true |}.
Proof.
  induction n as [|n IH]; [reflexivity|].
  change (Nat.iter (S (S n)) timeout_round (Speech.init true))
    with (timeout_round (Nat.iter (S n) timeout_round (Speech.init true))).
  now rewrite IH.
Qed.

Lemma timeout_rounds_no_microphone n :
  Nat.iter n timeout_round (Speech.init false) = Speech.init false.
Proof.
  induction n as [|n IH]; [reflexivity|].
  change (Nat.iter (S n) timeout_round (Speech.init false))
    with (timeout_round (Nat.iter n timeout_round (Speech.init false))).
  now rewrite IH.
Qed.

(** C1, the behaviour of the code.  However many auto-restart rounds
    have gone by without recognized text, the capture module is idle
    with [timeout_count] at 0, and the next run of
    [check_and_restart_listening] starts one more capture session and
    leaves [timeout_count] at 0: [start_listening], which it calls,
    resets the counter it has just incremented, so the bound
    [max_timeouts] is never reached and auto-restart never halts.  An
    explicit [start_listening] from there does reset the counter and
    start a session.  (When [__init__] found no microphone the counter
    reads 0 after every round as well, and each check fails in
    [start_listening] with an [AttributeError].) *)
Theorem check_and_restart_never_halts (n : nat) :
  let m := Nat.iter n timeout_round (Speech.init true) in
  let session :=
    ({| Speech.speech_thread :=
          Some {| Speech.is_running := true; Speech.stop_event := false |};
        Speech.timeout_count := 0;
        Speech.max_timeouts := 3;
        Speech.microphone := true |},
     [ListeningStarted; ThreadStart; SingleShot 7000 CheckAndRestartListening]) in
  Speech.thread_running m = false /\
  Speech.timeout_count m = 0%Z /\
  Speech.check_and_restart_listening m = session /\
  Speech.start_listening m = session /\
  let m0 := Nat.iter n timeout_round (Speech.init false) in
  Speech.timeout_count m0 = 0%Z /\
  Speech.check_and_restart_listening m0 =
    (Speech.init false, [ListeningStarted; Raised "AttributeError"]).
Proof.
  cbv zeta. rewrite timeout_rounds_no_microphone. destruct n as [|n].
  - repeat split.
  - rewrite timeout_rounds_state. repeat split.
Qed.

(** *** Counting capture sessions *)

Lemma sessions_started_log a b es :
  log b = (log a ++ es)%list ->
  sessions_started b =
  sessions_started a +
  length (List.filter (fun e => match e with ThreadStart => true | _ => false end) es).
Proof.
  unfold sessions_started. intros ->.
  now rewrite List.filter_app, length_app.
Qed.

Lemma sessions_started_same a b :
  log b = log a -> sessions_started b = sessions_started a.
Proof. unfold sessions_started. now intros ->. Qed.

(** What a start request does, by state of the capture thread. *)
Ltac by_thread a :=
  destruct a as [cfg [[[[|] se]|] cnt mx [|]] tts h hmax ri en lg];
  unfold listening, suspended, has_microphone, session_effects,
    enable_listening, on_speech_module,
    Speech.start_listening, Speech.start_raises, Speech.thread_running in *;
  proj_simpl;
  cbn [Speech.speech_thread Speech.is_running Speech.timeout_count
       Speech.max_timeouts Speech.microphone negb andb] in *;
  proj_simpl;
  try discriminate.

Lemma enable_listening_log a :
  log (enable_listening a) =
  (log a ++ if listening a then [] else session_effects a)%list.
Proof. by_thread a; now rewrite ?app_nil_r. Qed.

Lemma start_listening_log a :
  log (on_speech_module Speech.start_listening a) =
  (log a ++ if listening a then [] else session_effects a)%list.
Proof. by_thread a; now rewrite ?app_nil_r. Qed.

Lemma start_listening_listening a :
  has_microphone a = true ->
  listening (on_speech_module Speech.start_listening a) = true.
Proof. by_thread a; reflexivity. Qed.

Lemma check_and_restart_log a :
  log (step RestartTimerFired a) =
  (log a ++ if negb (listening a) &&
               (Speech.timeout_count (speech_module a) <?
                Speech.max_timeouts (speech_module a))%Z
            then session_effects a
            else [])%list.
Proof.
  destruct a as [cfg [[[[|] se]|] cnt mx [|]] tts h hmax ri en lg];
    cbn [step]; unfold on_speech_module, listening, has_microphone,
      session_effects,
      Speech.check_and_restart_listening, Speech.start_listening,
      Speech.thread_running;
    repeat (proj_simpl;
            cbn [Speech.speech_thread Speech.is_running Speech.timeout_count
                 Speech.max_timeouts Speech.microphone negb andb]);
    try (destruct (cnt <? mx)%Z);
    repeat (proj_simpl;
            cbn [Speech.speech_thread Speech.is_running Speech.timeout_count
                 Speech.max_timeouts Speech.microphone negb andb]);
    now rewrite ?app_nil_r.
Qed.

(** The direct command "computer listen": the request is shown and
    recorded, [start_listening] runs, and the confirmation follows unless
    [start_listening] raised. *)
Lemma listen_command_log now a :
  log (process_command now (Some "computer listen") a) =
  (log a ++ [UpdateResponse "You: computer listen";
             GetCommandIntent "computer listen"] ++
   (if listening a then [] else session_effects a) ++
   (if Speech.start_raises (speech_module a) then []
    else [UpdateResponse "I'm listening now."; SpeakTask "I'm listening now."]))%list.
Proof.
  set (a1 := add_to_command_history now "computer listen"
               (emit [UpdateResponse "You: computer listen"] a)).
  change (process_command now (Some "computer listen") a) with
    (if Speech.start_raises (speech_module a1)
     then on_speech_module Speech.start_listening a1
     else handle_assistant_response "I'm listening now."
            (on_speech_module Speech.start_listening a1)).
  assert (Hm : speech_module a1 = speech_module a) by (subst a1; frame).
  assert (Hlog : log a1 = (log a ++ [UpdateResponse "You: computer listen";
                                     GetCommandIntent "computer listen"])%list).
  { subst a1. rewrite add_to_command_history_log, log_emit.
    now rewrite <- app_assoc. }
  assert (Hl : listening a1 = listening a) by (unfold listening; now rewrite Hm).
  assert (Hs : session_effects a1 = session_effects a)
    by (unfold session_effects, has_microphone; now rewrite Hm).
  rewrite Hm. destruct (Speech.start_raises (speech_module a)).
  - rewrite start_listening_log, Hl, Hs, Hlog.
    now rewrite app_nil_r, <- !app_assoc.
  - unfold handle_assistant_response.
    rewrite log_emit, start_listening_log, Hl, Hs, Hlog.
    now rewrite <- !app_assoc.
Qed.

(** *** Which inputs touch the speech-output flag and the enable flag *)

Lemma step_tts i a :
  i <> SpeechEngineStarted -> i <> SpeechEngineFinished ->
  tts_module (step i a) = tts_module a.
Proof.
  intros H1 H2.
  destruct i as [ | |now text|now text| | | | | | | | ];
    [ | | apply process_command_tts
    | destruct (step_text_recognized now text a) as [->|(c & t & _ & ->)];
      [reflexivity | now rewrite process_command_tts]
    | .. ]; try congruence; frame.
Qed.


Ltac open_app a :=
  destruct a as [cfg [[[[|] se]|] cnt mx [|]] [[|]] h hmax ri [|] lg].

Ltac run_speech :=
  unfold on_start, on_finish, resume_listening_after_tts, enable_listening,
    disable_listening, suspended, listening, has_microphone, session_effects,
    on_speech_module,
    Speech.stop_listening, Speech.start_listening, Speech.start_raises,
    Speech.check_and_restart_listening, Speech.thread_finished,
    Speech.thread_running in *;
  repeat (proj_simpl;
          cbn [Speech.speech_thread Speech.is_running Speech.stop_event
               Speech.timeout_count Speech.max_timeouts Speech.microphone
               Tts.speaking negb andb] in *).


(** The start of speech output asks a running capture thread to stop. *)
Lemma on_start_stops_capture a :
  suspended a = false -> listening a = true ->
  suspended (on_start a) = true /\ listening (on_start a) = true /\
  new_effects a (on_start a) = [MSleep 100] /\
  exists th, Speech.speech_thread (speech_module (on_start a)) = Some th /\
             Speech.stop_event th = true.
Proof.
  intros Hs Hl. open_app a; run_speech; try discriminate;
    (repeat split; [now apply new_effects_app | eexists; split; reflexivity]).
Qed.

(** With a microphone and no capture thread running, each of the three
    start paths opens a session, whatever the speech-output flag says. *)
Lemma start_paths_open_session now a :
  listening a = false -> has_microphone a = true ->
  let session := [ListeningStarted; ThreadStart;
                  SingleShot 7000 CheckAndRestartListening] in
  new_effects a (step MicButtonClicked a) = session /\
  new_effects a (step (TextSubmitted now (Some "computer listen")) a) =
    ([UpdateResponse "You: computer listen";
      GetCommandIntent "computer listen"] ++ session ++
     [UpdateResponse "I'm listening now."; SpeakTask "I'm listening now."])%list /\
  ((Speech.timeout_count (speech_module a) <
    Speech.max_timeouts (speech_module a))%Z ->
   new_effects a (step RestartTimerFired a) = session).
Proof.
  intros Hl Hm. cbv zeta.
  assert (Hs : session_effects a =
               [ListeningStarted; ThreadStart;
                SingleShot 7000 CheckAndRestartListening])
    by (unfold session_effects; now rewrite Hm).
  assert (Hr : Speech.start_raises (speech_module a) = false).
  { unfold Speech.start_raises. unfold has_microphone in Hm. rewrite Hm.
    apply andb_false_r. }
  split; [|split].
  - apply new_effects_app. cbn [step]. now rewrite enable_listening_log, Hl, Hs.
  - apply new_effects_app. cbn [step].
    now rewrite listen_command_log, Hl, Hs, Hr.
  - intros Hc. apply Z.ltb_lt in Hc.
    apply new_effects_app. now rewrite check_and_restart_log, Hl, Hc, Hs.
Qed.

(** With a capture thread running, none of them does. *)
Lemma start_paths_gated now a i :
  listening a = true ->
  In i [MicButtonClicked; TextSubmitted now (Some "computer listen");
        RestartTimerFired] ->
  sessions_started (step i a) = sessions_started a.
Proof.
  intros Hl [<-|[<-|[<-|[]]]].
  - cbn [step].
    rewrite (sessions_started_log a _ _ (enable_listening_log a)), Hl.
    cbn. lia.
  - cbn [step].
    rewrite (sessions_started_log a _ _ (listen_command_log now a)), Hl.
    destruct (Speech.start_raises (speech_module a)); cbn; lia.
  - rewrite (sessions_started_log a _ _ (check_and_restart_log a)), Hl.
    cbn. lia.
Qed.

Lemma suspended_until_finish i a :
  suspended a = true -> i <> SpeechEngineFinished -> suspended (step i a) = true.
Proof.
  intros Hs Hi. unfold suspended in *.
  destruct i; try (now rewrite step_tts by discriminate); [|congruence].
  cbn [step]. unfold on_start. now rewrite Hs.
Qed.

(** C2, the behaviour of the code.  The start of speech output asks a
    running capture thread to stop, and that is all the code does to keep
    capture and speech apart: [start_listening] looks at the capture
    thread only, never at the speech output.  So with speech output in
    progress, a microphone and no capture thread left, the microphone button, the
    direct command "computer listen" and the restart timer (while
    [timeout_count < max_timeouts]) each open a capture session, and
    speech output stays in progress.  On the run of the sample request
    the restart timer of the first session fires while the answer is
    being spoken and opens a second session, which refutes the
    specification's sentence. *)
Theorem capture_starts_during_speech (now : Clock) :
  let session := [ListeningStarted; ThreadStart;
                  SingleShot 7000 CheckAndRestartListening] in
  (forall a, suspended a = false -> listening a = true ->
     let a' := step SpeechEngineStarted a in
     suspended a' = true /\ listening a' = true /\
     new_effects a a' = [MSleep 100] /\
     exists th, Speech.speech_thread (speech_module a') = Some th /\
                Speech.stop_event th = true) /\
  (forall a, suspended a = true -> listening a = false ->
     has_microphone a = true ->
     new_effects a (step MicButtonClicked a) = session /\
     new_effects a (step (TextSubmitted now (Some "computer listen")) a) =
       ([UpdateResponse "You: computer listen";
         GetCommandIntent "computer listen"] ++ session ++
        [UpdateResponse "I'm listening now.";
         SpeakTask "I'm listening now."])%list /\
     ((Speech.timeout_count (speech_module a) <
       Speech.max_timeouts (speech_module a))%Z ->
      new_effects a (step RestartTimerFired a) = session) /\
     (forall i, i <> SpeechEngineFinished -> suspended (step i a) = true)) /\
  (forall a i, listening a = true ->
     In i [MicButtonClicked; TextSubmitted now (Some "computer listen");
           RestartTimerFired] ->
     sessions_started (step i a) = sessions_started a) /\
  (let a := exec Sample.answer_while_listening Sample.fresh in
   reachable a /\
   suspended a = true /\ listening a = false /\ sessions_started a = 1 /\
   suspended (step RestartTimerFired a) = true /\
   listening (step RestartTimerFired a) = true /\
   sessions_started (step RestartTimerFired a) = 2) /\
  ~ SpecReading.no_capture_while_suspended.
Proof.
  cbv zeta.
  assert (R : reachable (exec Sample.answer_while_listening Sample.fresh))
    by (now exists Config.create_default_config, true,
                   Sample.answer_while_listening).
  split; [|split; [|split; [|split]]].
  - intros a Hs Hl. now apply on_start_stops_capture.
  - intros a Hs Hl Hm.
    destruct (start_paths_open_session now a Hl Hm) as (H1 & H2 & H3).
    repeat split; try assumption.
    intros i Hi. now apply suspended_until_finish.
  - intros a i. apply start_paths_gated.
  - split; [exact R|]. vm_compute. repeat split.
  - intros H.
    specialize (H _ RestartTimerFired R eq_refl ltac:(discriminate)).
    vm_compute in H. discriminate H.
Qed.


End TurnFacts.

(** ** Collaborators: the weather lookup and the general-query fallback *)

Module CollaboratorFacts.
Import PyStr App AppFacts.

(** A text the system-command path declines leaves the state alone. *)
Lemma process_system_command_unhandled now text a :
  fst (process_system_command now text a) = false ->
  snd (process_system_command now text a) = a.
Proof.
  unfold process_system_command, execute_direct_command.
  repeat break_match; cbn [fst snd]; congruence.
Qed.

(** Every command the system-command path declines and
    [get_command_intent] tags weather is dispatched to the weather
    collaborator, with the configuration lookup as location. *)
Lemma weather_dispatch now c t a :
  fst (process_system_command now (String c t) a) = false ->
  Intent.get_command_intent (String c t) = "weather" ->
  exists a1,
    process_command now (Some (String c t)) a =
    emit [GetWeather (Config.get (config a) "default_location" "Lucknow"
                        Config.PNone)] a1.
Proof.
  intros Hsys Hw. unfold process_command.
  rewrite (process_system_command_handled now now (String c t) a
             (add_to_command_history now (String c t)
                (emit (add_user_message (String c t)) a))) in Hsys.
  pose proof (process_system_command_unhandled _ _ _ Hsys) as Hsnd.
  destruct (process_system_command now (String c t) _) as [handled a'].
  cbn [fst snd] in *. subst handled a'. rewrite Hw. cbn [String.eqb Ascii.eqb].
  eexists. unfold process_weather_command. f_equal. f_equal. frame.
Qed.

(** C9, the behaviour of the code.  A weather command reaches the
    weather collaborator with the value of
    [config.get("default_location", "Lucknow")], which [AppConfig.get]
    reads as section "default_location", key "Lucknow", default [None]:
    on the default configuration the location handed over is [None],
    neither a place parsed from the text nor the default "Lucknow".
    The second half of the claim holds: a result with [success] false is
    answered with the fixed apology, shown and spoken once. *)
Theorem weather_location_is_none (now : Clock) :
  new_effects Sample.fresh
    (process_command now (Some "What's the weather in Paris") Sample.fresh) =
    [UpdateResponse "You: What's the weather in Paris";
     GetCommandIntent "What's the weather in Paris";
     GetCommandIntent "What's the weather in Paris";
     GetWeather Config.PNone] /\
  Intent.get_command_intent "What's the weather in Paris" = "weather" /\
  (forall text a,
     process_weather_command text a =
     emit [GetWeather (Config.get (config a) "default_location" "Lucknow"
                         Config.PNone)] a) /\
  Config.get Config.create_default_config "default_location" "Lucknow"
    Config.PNone = Config.PNone /\
  (forall loc descr temp fc a,
     new_effects a
       (handle_weather_response
          {| w_success := false; w_location := loc; w_description := descr;
             w_temperature := temp; w_forecast := fc |} a) =
     [UpdateResponse
        "Sorry, I couldn't get the weather information. Please try again later.";
      SpeakTask
        "Sorry, I couldn't get the weather information. Please try again later."]).
Proof.
  split; [|split; [|split; [|split]]].
  - apply new_effects_app. vm_compute. reflexivity.
  - reflexivity.
  - reflexivity.
  - reflexivity.
  - intros. now apply new_effects_app.
Qed.

(** *** [AIModule.process_query] *)

Lemma random_choice_in draw :
  In (AI.random_choice draw AI.fallback_responses) AI.fallback_responses.
Proof.
  unfold AI.random_choice. apply nth_In.
  apply Nat.mod_upper_bound. discriminate.
Qed.

Lemma fallback_when_unavailable env m q :
  AI.has_key m = false \/ AI.openai_available env = false ->
  AI.response (AI.response_info env m q) =
  AI.random_choice (AI.random_index env) AI.fallback_responses.
Proof.
  unfold AI.response_info, AI.generate_response, AI._get_fallback_response.
  cbn [AI.response].
  intros [H|H]; rewrite H; [reflexivity|].
  now destruct (AI.has_key m).
Qed.

(** C10.  [process_query] builds a result with [success] true; when no
    exception is raised in its [try] block (the OpenAI call's own
    exceptions are caught inside [generate_response], so only the
    callback can raise there) it hands exactly that result to the
    callback, once, and returns it.  This covers the case where the
    service is unavailable, no API key or no package: the response text
    is then the element of [fallback_responses] drawn by
    [random.choice].  A result with [success] false reaches the callback
    only after an exception in the [try] block, and
    [handle_ai_response] takes its apology branch on such a result
    only. *)
Theorem process_query_success {S : Type}
    (env : AI.Env) (m : AI.t) (q : string) (cb : @AI.Callback S) (s : S) :
  let info := AI.response_info env m q in
  AI.success info = true /\
  AI.process_query env m q None s = (s, AI.Returned info) /\
  (snd (cb info s) = None ->
     AI.process_query env m q (Some cb) s = (fst (cb info s), AI.Returned info) /\
     snd (fst (AI.process_query env m q (Some (AI.recording cb)) (s, []))) = [info]) /\
  (forall i,
     In i (snd (fst (AI.process_query env m q (Some (AI.recording cb)) (s, [])))) ->
     AI.success i = false -> snd (cb info s) <> None) /\
  (AI.has_key m = false \/ AI.openai_available env = false ->
     AI.response info = AI.random_choice (AI.random_index env) AI.fallback_responses /\
     In (AI.response info) AI.fallback_responses) /\
  (forall ri a,
     handle_ai_response ri a =
     handle_assistant_response
       (if AI.success ri then AI.response ri else apology_ai) a).
Proof.
  cbv zeta. split; [reflexivity|]. split; [reflexivity|].
  split; [|split; [|split]].
  - intros Hok. unfold AI.process_query, AI.recording. cbn [fst snd].
    destruct (cb (AI.response_info env m q) s) as [s1 e] eqn:E.
    cbn [snd] in Hok. subst e. now split.
  - intros i Hin Hfail Hok. revert Hin.
    unfold AI.process_query, AI.recording. cbn [fst snd].
    destruct (cb (AI.response_info env m q) s) as [s1 e] eqn:E.
    cbn [snd] in Hok. subst e. cbn [fst snd In].
    intros [<-|[]]. discriminate Hfail.
  - intros H. rewrite (fallback_when_unavailable env m q H).
    split; [reflexivity | apply random_choice_in].
  - reflexivity.
Qed.

(** The theorem with the router's handler as callback, no API key, and
    the draw 6 (the third fallback text). *)
Lemma process_query_success_witness :
  AI.process_query
    {| AI.openai_available := true; AI.api := AI.ApiNoChoices; AI.random_index := 6 |}
    {| AI.api_key := None |} "Tell me a joke"
    (Some (fun info a => (handle_ai_response info a, None))) Sample.fresh
  = (handle_assistant_response
       "I apologize, but I'm unable to process that request right now."
       Sample.fresh,
     AI.Returned
       {| AI.success := true; AI.query := "Tell me a joke";
          AI.response := "I apologize, but I'm unable to process that request right now.";
          AI.error := None |}).
Proof.
  destruct (process_query_success
              {| AI.openai_available := true; AI.api := AI.ApiNoChoices;
                 AI.random_index := 6 |}
              {| AI.api_key := None |} "Tell me a joke"
              (fun info a => (handle_ai_response info a, None)) Sample.fresh)
    as (_ & _ & H & _).
  destruct (H eq_refl) as [H1 _]. exact H1.
Defined.

End CollaboratorFacts.

(** * Further properties of the code *)

(** ** The configuration store *)

Module ConfigFacts.

(** X1.  Writing a key and reading it back gives the written value,
    whatever default the reader passes and whether or not the section
    existed; every other key of every section reads as before; the
    boolean returned is the outcome of saving the file. *)
Theorem config_set_get
    (cfg : gmap string (gmap string Config.pyval))
    (s k : string) (v : Config.pyval) (saved : bool) :
  let cfg' := fst (ConfigStore.set cfg s k v saved) in
  (forall d, Config.get cfg' s k d = v) /\
  (forall s' k' d, (s', k') <> (s, k) ->
     Config.get cfg' s' k' d = Config.get cfg s' k' d) /\
  snd (ConfigStore.set cfg s k v saved) = saved.
Proof.
  cbv zeta. unfold ConfigStore.set, Config.get. cbn [fst snd].
  split; [|split; [|reflexivity]].
  - intros d. rewrite lookup_insert_eq. now rewrite lookup_insert_eq.
  - intros s' k' d Hne.
    destruct (decide (s' = s)) as [->|Hs].
    + assert (Hk : k <> k') by congruence.
      rewrite lookup_insert_eq, lookup_insert_ne by exact Hk.
      destruct (cfg !! s) eqn:E; [now rewrite E|].
      now rewrite lookup_insert_eq.
    + rewrite lookup_insert_ne by congruence.
      destruct (cfg !! s) eqn:E; [reflexivity|].
      now rewrite lookup_insert_ne by congruence.
Qed.

(** Writing the units of the default configuration leaves its country. *)
Lemma config_set_get_witness :
  ("news", "default_country") <> ("weather", "units") /\
  Config.get
    (fst (ConfigStore.set Config.create_default_config "weather" "units"
            (Config.PStr "imperial") true))
    "news" "default_country" Config.PNone = Config.PStr "us".
Proof.
  split; [discriminate|].
  destruct (config_set_get Config.create_default_config "weather" "units"
              (Config.PStr "imperial") true) as (_ & H & _).
  rewrite (H "news" "default_country" Config.PNone) by discriminate.
  reflexivity.
Defined.

End ConfigFacts.

(** ** More on turn taking *)

Module TurnMoreFacts.
Import PyStr App AppFacts TurnFacts.

Ltac speech_simpl :=
  repeat (proj_simpl;
          cbn [Speech.speech_thread Speech.is_running Speech.stop_event
               Speech.timeout_count Speech.max_timeouts Speech.microphone
               Tts.speaking negb andb] in *).

Ltac open_state a :=
  destruct a as [cfg [[[[|] se]|] cnt mx [|]] [[|]] h hmax ri [|] lg].

(** X2.  The speech engine reports a start for every word; only the
    first report of an utterance has an effect: it raises the speaking
    flag and runs [stop_listening], which sets the stop event of a
    running capture thread and waits 100 ms, and announces the end of
    listening when no capture thread is running.  Likewise only the
    first finish report has an effect.  Neither the start report nor
    anything it triggers opens a capture session or touches the enable
    flag. *)
Theorem speech_reports_idempotent (a : App.t) :
  on_start (on_start a) = on_start a /\
  on_finish (on_finish a) = on_finish a /\
  suspended (on_start a) = true /\
  suspended (on_finish a) = false /\
  sessions_started (on_start a) = sessions_started a /\
  is_listening_enabled (on_start a) = is_listening_enabled a /\
  (suspended a = true -> on_start a = a) /\
  (suspended a = false -> on_finish a = a) /\
  (suspended a = false -> listening a = true ->
     new_effects a (on_start a) = [MSleep 100] /\
     listening (on_start a) = true /\
     exists th,
       Speech.speech_thread (speech_module (on_start a)) = Some th /\
       Speech.stop_event th = true) /\
  (suspended a = false -> listening a = false ->
     new_effects a (on_start a) = [ListeningEnded] /\
     speech_module (on_start a) = speech_module a).
Proof.
  assert (H6 : on_start (on_start a) = on_start a /\
               on_finish (on_finish a) = on_finish a /\
               suspended (on_start a) = true /\
               suspended (on_finish a) = false /\
               sessions_started (on_start a) = sessions_started a /\
               is_listening_enabled (on_start a) = is_listening_enabled a).
  { open_state a;
      unfold on_start, on_finish, resume_listening_after_tts, suspended,
        sessions_started, on_speech_module,
        Speech.stop_listening, Speech.start_listening, Speech.thread_running;
      speech_simpl; rewrite ?List.filter_app, ?length_app; cbn [List.filter length];
      repeat split; try lia. }
  destruct H6 as (H1 & H2 & H3 & H4 & H5 & H6).
  repeat (split; [assumption|]).
  split; [|split; [|split]].
  - unfold suspended, on_start. now intros ->.
  - unfold suspended, on_finish. now intros ->.
  - intros Hs Hl. destruct (on_start_stops_capture a Hs Hl) as (_ & Hl' & He & Hth).
    now repeat split.
  - intros Hs Hl. open_state a; run_speech; try discriminate;
      (split; [now apply new_effects_app | reflexivity]).
Qed.

(** The theorem on the state the microphone button leaves: a capture
    thread is running and nothing is being spoken. *)
Lemma speech_reports_idempotent_witness :
  new_effects (step MicButtonClicked Sample.fresh)
    (on_start (step MicButtonClicked Sample.fresh)) = [MSleep 100].
Proof.
  destruct (speech_reports_idempotent (step MicButtonClicked Sample.fresh))
    as (_ & _ & _ & _ & _ & _ & _ & _ & H & _).
  exact (proj1 (H eq_refl eq_refl)).
Defined.

(** X3.  A stop request does not cancel the pending restart timer: after
    [disable_listening], once the capture thread has left and the timer
    fires, a new capture session starts although [is_listening_enabled]
    is off (the capture module having its microphone). *)
Theorem stop_does_not_cancel_restart (a : App.t) (stopped_in_capture : bool) :
  has_microphone a = true ->
  (Speech.timeout_count (speech_module a) <
   Speech.max_timeouts (speech_module a))%Z ->
  let a' := exec [StopListeningRequested; ThreadFinished stopped_in_capture;
                  RestartTimerFired] a in
  listening a' = true /\
  is_listening_enabled a' = false /\
  sessions_started a' = S (sessions_started a).
Proof.
  intros Hm Hlt. apply Z.ltb_lt in Hlt. cbv zeta.
  open_state a; destruct stopped_in_capture; cbn [exec fold_left step];
    unfold disable_listening, listening, has_microphone, sessions_started,
      on_speech_module,
      Speech.stop_listening, Speech.thread_finished,
      Speech.check_and_restart_listening, Speech.start_listening,
      Speech.thread_running in *;
    speech_simpl; try discriminate; rewrite ?Hlt; speech_simpl;
    rewrite ?List.filter_app, ?length_app; cbn [List.filter length];
    repeat split; try lia.
Qed.

(** The theorem right after the microphone button was clicked. *)
Lemma stop_does_not_cancel_restart_witness :
  listening
    (exec [StopListeningRequested; ThreadFinished true; RestartTimerFired]
       (step MicButtonClicked Sample.fresh)) = true /\
  is_listening_enabled
    (exec [StopListeningRequested; ThreadFinished true; RestartTimerFired]
       (step MicButtonClicked Sample.fresh)) = false.
Proof.
  destruct (stop_does_not_cancel_restart (step MicButtonClicked Sample.fresh) true)
    as (H1 & H2 & _); [reflexivity|reflexivity|]. now split.
Defined.

End TurnMoreFacts.

(** ** What one input makes the application do *)

Module EffectFacts.
Import PyStr App AppFacts Observe.

Lemma count_app p (l1 l2 : list Effect) :
  count p (l1 ++ l2) = count p l1 + count p l2.
Proof. unfold count. now rewrite List.filter_app, length_app. Qed.

Lemma balanced_app mic (l1 l2 : list Effect) :
  balanced mic l1 = true -> balanced mic l2 = true ->
  balanced mic (l1 ++ l2) = true.
Proof.
  unfold balanced. destruct mic;
    rewrite !andb_true_iff, !Nat.eqb_eq, !count_app; lia.
Qed.

Lemma balanced_nil mic : balanced mic [] = true.
Proof. now destruct mic. Qed.

Lemma handle_assistant_response_log r a :
  log (handle_assistant_response r a) =
  (log a ++ if truthy r then [UpdateResponse r; SpeakTask r] else [])%list.
Proof.
  unfold handle_assistant_response, add_assistant_message, Tts.speak.
  rewrite log_emit. now destruct (truthy r).
Qed.

Lemma on_speech_module_start_effects a :
  exists es, log (on_speech_module Speech.start_listening a) = (log a ++ es)%list /\
             balanced (has_microphone a) es = true /\ count is_quit_timer es = 0.
Proof.
  unfold on_speech_module, Speech.start_listening, has_microphone.
  destruct (Speech.thread_running (speech_module a));
    [|destruct (Speech.microphone (speech_module a))];
    (eexists; split; [proj_simpl; reflexivity | split; try reflexivity]).
  now destruct (Speech.microphone (speech_module a)).
Qed.

Lemma on_speech_module_stop_effects mic a :
  exists es, log (on_speech_module Speech.stop_listening a) = (log a ++ es)%list /\
             balanced mic es = true /\ count is_quit_timer es = 0.
Proof.
  unfold on_speech_module, Speech.stop_listening.
  destruct (Speech.speech_thread (speech_module a)) as [[[|] se]|];
    (eexists; split; [proj_simpl; reflexivity | now destruct mic]).
Qed.

Lemma respond_effects mic r a :
  exists es, log (handle_assistant_response r a) = (log a ++ es)%list /\
             balanced mic es = true /\ count is_quit_timer es = 0.
Proof.
  rewrite handle_assistant_response_log.
  eexists; split; [reflexivity | now destruct (truthy r), mic].
Qed.

Lemma effects_trans a b c es1 es2 :
  log b = (log a ++ es1)%list -> log c = (log b ++ es2)%list ->
  log c = (log a ++ (es1 ++ es2))%list.
Proof. intros H1 H2. now rewrite H2, H1, app_assoc. Qed.

Lemma execute_direct_command_effects now ct a :
  exists es,
    log (snd (execute_direct_command now ct a)) = (log a ++ es)%list /\
    balanced (has_microphone a) es = true /\
    count is_quit_timer es = 0.
Proof.
  unfold execute_direct_command.
  destruct (mem ct ["time"; "current time"; "what time is it"]);
    [cbn [fst snd]; now apply (respond_effects (has_microphone a))|].
  destruct (mem ct ["date"; "today"; "what day is it"; "current date"]);
    [cbn [fst snd]; now apply (respond_effects (has_microphone a))|].
  destruct (mem ct ["repeat"; "repeat last"; "say that again"]).
  { cbn [fst snd].
    destruct (1 <? length (command_history a))%nat;
      [|now apply (respond_effects (has_microphone a))].
    destruct (command_history a !! (length (command_history a) - 2));
      [now apply (respond_effects (has_microphone a))|].
    exists []. rewrite app_nil_r. now rewrite balanced_nil. }
  destruct (mem ct ["start listening"; "listen"]).
  { cbn [fst snd].
    destruct (on_speech_module_start_effects a) as (es1 & H1 & B1 & Q1).
    destruct (Speech.start_raises (speech_module a)); [now exists es1|].
    destruct (respond_effects (has_microphone a) "I'm listening now."
                (on_speech_module Speech.start_listening a))
      as (es2 & H2 & B2 & Q2).
    exists (es1 ++ es2)%list. rewrite count_app, Q1, Q2.
    repeat split; [eapply effects_trans; eauto | now apply balanced_app]. }
  destruct (mem ct ["stop listening"; "stop"]).
  { cbn [fst snd].
    destruct (on_speech_module_stop_effects (has_microphone a) a)
      as (es1 & H1 & B1 & Q1).
    destruct (respond_effects (has_microphone a) "I've stopped listening."
                (on_speech_module Speech.stop_listening a))
      as (es2 & H2 & B2 & Q2).
    exists (es1 ++ es2)%list. rewrite count_app, Q1, Q2.
    repeat split; [eapply effects_trans; eauto | now apply balanced_app]. }
  cbn [fst snd]. exists []. rewrite app_nil_r. now rewrite balanced_nil.
Qed.

Lemma find_existsb {A} (f : A -> bool) (l : list A) :
  existsb f l = true -> exists x, find f l = Some x.
Proof.
  induction l as [|x l IH]; [discriminate|]. simpl.
  destruct (f x); [eauto | exact IH].
Qed.

Lemma process_system_command_effects now text a :
  exists es,
    log (snd (process_system_command now text a)) = (log a ++ es)%list /\
    balanced (has_microphone a) es = true /\
    (any_startswith (lower text) command_prefixes = true ->
     count is_quit_timer es = 0).
Proof.
  unfold process_system_command.
  destruct (any_startswith (lower text) command_prefixes) eqn:Hp.
  - destruct (find_existsb _ _ Hp) as [p ->].
    destruct (execute_direct_command_effects now
                (strip (drop (String.length p) (lower text))) a)
      as (es & H & B & Q).
    exists es. auto.
  - destruct (any_in ["exit"; "quit"; "close"; "shutdown"] (lower text)).
    { cbn [fst snd]. eexists. split.
      - rewrite log_emit, handle_assistant_response_log. cbn [truthy].
        rewrite <- app_assoc. reflexivity.
      - repeat split; try discriminate. now destruct (has_microphone a). }
    destruct (any_in ["help"; "what can you do"; "commands"] (lower text)).
    { cbn [fst snd]. unfold show_help.
      destruct (respond_effects (has_microphone a) help_text a)
        as (es & H & B & Q).
      exists es. auto. }
    destruct (any_in ["history"; "previous commands"; "what did i say"] (lower text)).
    { cbn [fst snd]. unfold show_command_history.
      destruct (command_history a).
      - destruct (respond_effects (has_microphone a)
                    "You haven't given me any commands yet." a)
          as (es & H & B & Q). exists es. auto.
      - match goal with
        | |- context [handle_assistant_response ?r a] =>
            destruct (respond_effects (has_microphone a) r a)
              as (es & H & B & Q)
        end.
        exists es. auto. }
    cbn [fst snd]. exists []. rewrite app_nil_r, balanced_nil.
    repeat split; try discriminate.
Qed.

Lemma dispatch_effects mic text (a : App.t) :
  let b :=
    if String.eqb (Intent.get_command_intent text) "weather"
    then process_weather_command text a
    else if String.eqb (Intent.get_command_intent text) "news"
    then process_news_command text a
    else if String.eqb (Intent.get_command_intent text) "reminder"
    then process_reminder_command text a
    else emit [ProcessQuery text] a in
  exists es, log b = (log a ++ es)%list /\
             balanced mic es = true /\ count is_quit_timer es = 0.
Proof.
  cbv zeta.
  destruct (String.eqb _ "weather");
    [unfold process_weather_command; eexists; split;
     [apply log_emit | now destruct mic]|].
  destruct (String.eqb _ "news");
    [unfold process_news_command; eexists; split;
     [apply log_emit | now destruct mic]|].
  destruct (String.eqb _ "reminder");
    [now apply respond_effects|].
  eexists; split; [apply log_emit | now destruct mic].
Qed.

(** The effects of [process_command] on a non-empty text. *)
Lemma process_command_effects now c t a :
  exists es,
    log (process_command now (Some (String c t)) a) = (log a ++ es)%list /\
    balanced (has_microphone a) es = true /\
    (any_startswith (lower (String c t)) command_prefixes = true ->
     count is_quit_timer es = 0).
Proof.
  unfold process_command.
  set (a1 := add_to_command_history now (String c t)
               (emit (add_user_message (String c t)) a)).
  assert (H1 : log a1 = (log a ++ [UpdateResponse ("You: " ++ String c t);
                                   GetCommandIntent (String c t)])%list).
  { unfold a1. rewrite add_to_command_history_log, log_emit.
    now rewrite <- app_assoc. }
  assert (Hm : has_microphone a1 = has_microphone a)
    by (unfold has_microphone, a1; f_equal; frame).
  destruct (process_system_command_effects now (String c t) a1)
    as (es2 & H2 & B2 & Q2).
  rewrite Hm in B2.
  destruct (process_system_command now (String c t) a1) as [handled a2].
  cbn [fst snd] in *. destruct handled.
  - eexists. split; [eapply effects_trans; eauto|].
    rewrite count_app.
    repeat split;
      [apply balanced_app; [now destruct (has_microphone a) | exact B2]|].
    intros Hp. now rewrite (Q2 Hp).
  - set (a3 := update_intent_frequency (Intent.get_command_intent (String c t))
                 (emit [GetCommandIntent (String c t)] a2)).
    assert (H3 : log a3 = (log a2 ++ [GetCommandIntent (String c t)])%list)
      by (unfold a3; frame).
    destruct (dispatch_effects (has_microphone a) (String c t) a3)
      as (es4 & H4 & B4 & Q4).
    cbv zeta in H4.
    eexists. split.
    + eapply effects_trans; [exact H1|].
      eapply effects_trans; [exact H2|].
      eapply effects_trans; [exact H3| exact H4].
    + rewrite !count_app, Q4.
      repeat split.
      * repeat apply balanced_app; auto; now destruct (has_microphone a).
      * intros Hp. now rewrite (Q2 Hp).
Qed.

(** X5.  A text that starts with a direct-command prefix ("computer",
    "assistant", "hey assistant", "execute", "run") is never treated as
    an exit request, even when it contains "exit", "quit", "close" or
    "shutdown": the prefix branch returns before the keyword checks, so no
    termination is scheduled. *)
Theorem prefixed_text_never_quits (now : Clock) (c : ascii) (t : string) (a : App.t) :
  any_startswith (lower (String c t)) command_prefixes = true ->
  count is_quit_timer (new_effects a (process_command now (Some (String c t)) a)) = 0.
Proof.
  intros Hp.
  destruct (process_command_effects now c t a) as (es & H & _ & Q).
  rewrite (new_effects_app _ _ _ H). exact (Q Hp).
Qed.

(** "Computer, exit" goes to the general-query collaborator instead. *)
Lemma prefixed_text_never_quits_witness :
  any_startswith (lower "Computer, exit") command_prefixes = true /\
  count is_quit_timer
    (new_effects Sample.fresh
       (process_command Sample.noon (Some "Computer, exit") Sample.fresh)) = 0.
Proof.
  split; [reflexivity|].
  exact (prefixed_text_never_quits Sample.noon "C" "omputer, exit" Sample.fresh eq_refl).
Defined.

End EffectFacts.

(** ** Invariants of every run *)

Module RunFacts.
Import PyStr App AppFacts Observe EffectFacts.

Lemma stays mic a :
  exists es, log a = (log a ++ es)%list /\ balanced mic es = true.
Proof. exists []. now rewrite app_nil_r, balanced_nil. Qed.

Lemma respond_balanced mic r a :
  exists es, log (handle_assistant_response r a) = (log a ++ es)%list /\
             balanced mic es = true.
Proof.
  destruct (respond_effects mic r a) as (es & H & B & _). now exists es.
Qed.

Lemma step_effects i a :
  exists es, log (step i a) = (log a ++ es)%list /\
             balanced (has_microphone a) es = true.
Proof.
  destruct i as [ | |now text|now text|sc| | | |info|info|info| ]; cbn [step].
  - unfold enable_listening.
    destruct (on_speech_module_start_effects (set_is_listening_enabled true a))
      as (es & H & B & _). exists es. now split.
  - unfold disable_listening.
    destruct (on_speech_module_stop_effects (has_microphone a)
                (set_is_listening_enabled false a))
      as (es & H & B & _). exists es. now split.
  - destruct text as [[|c t]|]; try apply respond_balanced.
    destruct (process_command_effects now c t a) as (es & H & B & _).
    exists es. now split.
  - change (exists es, log (step (TextRecognized now text) a) = (log a ++ es)%list /\
                       balanced (has_microphone a) es = true).
    destruct (step_text_recognized now text a) as [->|(c & t & -> & ->)];
      [apply stays|].
    destruct (process_command_effects now c t
                (emit [UpdateResponse ("You said: " ++ String c t ++ nl ++ nl
                                       ++ "Processing...")] a))
      as (es & H & B & _).
    eexists. split; [rewrite H, log_emit, <- app_assoc; reflexivity|].
    apply balanced_app; [now destruct (has_microphone a) | exact B].
  - unfold on_speech_module, Speech.thread_finished.
    destruct (Speech.speech_thread (speech_module a)) as [[[|] se]|];
      (eexists; split; [proj_simpl; reflexivity|]);
      try now destruct (has_microphone a).
    now destruct sc, se, (has_microphone a).
  - unfold on_speech_module, Speech.check_and_restart_listening,
      Speech.start_listening, has_microphone.
    destruct (Speech.thread_running (speech_module a)) eqn:E; cbn [negb].
    + eexists; split; [proj_simpl; reflexivity|].
      now destruct (Speech.microphone _).
    + destruct (_ <? _)%Z.
      * unfold Speech.thread_running in *.
        cbn [Speech.speech_thread Speech.microphone]. rewrite E.
        destruct (Speech.microphone (speech_module a));
          (eexists; split; [proj_simpl; reflexivity | reflexivity]).
      * eexists; split; [proj_simpl; reflexivity|].
        now destruct (Speech.microphone _).
  - unfold on_start. destruct (Tts.speaking (tts_module a)); [apply stays|].
    destruct (on_speech_module_stop_effects (has_microphone a)
                (set_tts_module {| Tts.speaking := true |} a))
      as (es & H & B & _). exists es. now split.
  - unfold on_finish, resume_listening_after_tts.
    destruct (Tts.speaking (tts_module a)); [|apply stays]. proj_simpl.
    destruct (is_listening_enabled a).
    + destruct (on_speech_module_start_effects
                  (set_tts_module {| Tts.speaking := false |} a))
        as (es & H & B & _). exists es. now split.
    + exists []. now rewrite app_nil_r, balanced_nil.
  - apply respond_balanced.
  - apply respond_balanced.
  - apply respond_balanced.
  - unfold handle_close_event.
    destruct (on_speech_module_stop_effects (has_microphone a) a)
      as (es & H & B & _).
    eexists. split; [rewrite log_emit, H, <- app_assoc; reflexivity|].
    apply balanced_app; [exact B | now destruct (has_microphone a)].
Qed.

(** *** The capture module along a run *)

Lemma execute_direct_command_speech now ct a :
  let m := speech_module a in
  let m' := speech_module (snd (execute_direct_command now ct a)) in
  m' = m \/ m' = fst (Speech.start_listening m) \/ m' = fst (Speech.stop_listening m).
Proof.
  cbv zeta. unfold execute_direct_command, on_speech_module.
  repeat break_match; proj_simpl; auto;
    match goal with
    | H : _ = (?m, _) |- _ => rewrite H; cbn [fst]; auto
    end.
Qed.

Lemma process_system_command_speech now text a :
  let m := speech_module a in
  let m' := speech_module (snd (process_system_command now text a)) in
  m' = m \/ m' = fst (Speech.start_listening m) \/ m' = fst (Speech.stop_listening m).
Proof.
  cbv zeta. unfold process_system_command.
  destruct (if any_startswith _ _ then _ else _);
    [apply execute_direct_command_speech|].
  left. frame.
Qed.

Lemma process_command_speech now text a :
  let m := speech_module a in
  let m' := speech_module (process_command now text a) in
  m' = m \/ m' = fst (Speech.start_listening m) \/ m' = fst (Speech.stop_listening m).
Proof.
  cbv zeta. destruct text as [[|c t]|]; [left; frame| |left; frame].
  unfold process_command.
  set (a1 := add_to_command_history now (String c t)
               (emit (add_user_message (String c t)) a)).
  assert (E1 : speech_module a1 = speech_module a) by (unfold a1; frame).
  pose proof (process_system_command_speech now (String c t) a1) as H.
  cbv zeta in H. rewrite E1 in H.
  destruct (process_system_command now (String c t) a1) as [handled a2].
  cbn [snd] in H. destruct handled; [exact H|].
  match goal with
  | |- speech_module ?b = _ \/ _ =>
      replace (speech_module b) with (speech_module a2) by frame
  end.
  exact H.
Qed.

(** Whatever an input does to the capture module, it does through one
    of its four methods or the end of the capture thread. *)
Lemma step_speech_cases i a :
  let m := speech_module a in
  let m' := speech_module (step i a) in
  m' = m \/ m' = fst (Speech.start_listening m) \/
  m' = fst (Speech.stop_listening m) \/
  m' = fst (Speech.check_and_restart_listening m) \/
  exists sc, m' = fst (Speech.thread_finished sc m).
Proof.
  cbv zeta.
  assert (Hcases : forall m',
            m' = speech_module a \/
            m' = fst (Speech.start_listening (speech_module a)) \/
            m' = fst (Speech.stop_listening (speech_module a)) ->
            m' = speech_module a \/
            m' = fst (Speech.start_listening (speech_module a)) \/
            m' = fst (Speech.stop_listening (speech_module a)) \/
            m' = fst (Speech.check_and_restart_listening (speech_module a)) \/
            exists sc, m' = fst (Speech.thread_finished sc (speech_module a)))
    by (intros m' [H|[H|H]]; auto).
  destruct i as [ | |now text|now text|sc| | | |info|info|info| ].
  - apply Hcases. right; left. unfold step, enable_listening, on_speech_module.
    proj_simpl. now destruct (Speech.start_listening _).
  - apply Hcases. right; right. unfold step, disable_listening, on_speech_module.
    proj_simpl. now destruct (Speech.stop_listening _).
  - apply Hcases. apply process_command_speech.
  - destruct (step_text_recognized now text a) as [->|(c & t & -> & ->)];
      [now left|].
    apply Hcases.
    apply (process_command_speech now (Some (String c t))
             (emit [UpdateResponse ("You said: " ++ String c t ++ nl ++ nl
                                    ++ "Processing...")] a)).
  - do 4 right. exists sc. unfold step, on_speech_module.
    now destruct (Speech.thread_finished _ _).
  - do 3 right. left. unfold step, on_speech_module.
    now destruct (Speech.check_and_restart_listening _).
  - apply Hcases. unfold step, on_start, on_speech_module.
    destruct (Tts.speaking _); [now left|]. right; right. proj_simpl.
    now destruct (Speech.stop_listening _).
  - apply Hcases.
    unfold step, on_finish, resume_listening_after_tts, on_speech_module.
    destruct (Tts.speaking _); [|now left]. proj_simpl.
    destruct (is_listening_enabled a); [|now left]. right; left. proj_simpl.
    now destruct (Speech.start_listening _).
  - apply Hcases. left. frame.
  - apply Hcases. left. frame.
  - apply Hcases. left. frame.
  - apply Hcases. right; right. unfold step, handle_close_event, on_speech_module.
    proj_simpl. now destruct (Speech.stop_listening _).
Qed.

Lemma speech_ops_keep (m : Speech.t) :
  let keeps m' :=
    Speech.microphone m' = Speech.microphone m /\
    Speech.max_timeouts m' = Speech.max_timeouts m /\
    (Speech.timeout_count m = 0%Z -> Speech.timeout_count m' = 0%Z) in
  keeps (fst (Speech.start_listening m)) /\
  keeps (fst (Speech.stop_listening m)) /\
  keeps (fst (Speech.check_and_restart_listening m)) /\
  forall sc, keeps (fst (Speech.thread_finished sc m)).
Proof.
  cbv zeta.
  destruct m as [[[[|] se]|] cnt mx [|]];
    unfold Speech.start_listening, Speech.stop_listening,
      Speech.check_and_restart_listening, Speech.thread_finished,
      Speech.thread_running;
    cbn [Speech.speech_thread Speech.is_running Speech.timeout_count
         Speech.max_timeouts Speech.microphone negb fst];
    try destruct (cnt <? mx)%Z;
    cbn [Speech.speech_thread Speech.is_running Speech.timeout_count
         Speech.max_timeouts Speech.microphone negb fst];
    repeat split; intros; try assumption;
    try (match goal with |- context [if ?b then _ else _] => destruct b end);
    reflexivity.
Qed.

Lemma step_keeps i a :
  has_microphone (step i a) = has_microphone a /\
  Speech.max_timeouts (speech_module (step i a)) =
    Speech.max_timeouts (speech_module a) /\
  (Speech.timeout_count (speech_module a) = 0%Z ->
   Speech.timeout_count (speech_module (step i a)) = 0%Z).
Proof.
  unfold has_microphone.
  destruct (speech_ops_keep (speech_module a)) as (Hs & Hp & Hc & Hf).
  cbv zeta in *.
  destruct (step_speech_cases i a) as [H|[H|[H|[H|[sc H]]]]];
    cbv zeta in H; rewrite H; auto.
Qed.

Lemma exec_keeps inputs a :
  has_microphone (exec inputs a) = has_microphone a /\
  Speech.max_timeouts (speech_module (exec inputs a)) =
    Speech.max_timeouts (speech_module a) /\
  (Speech.timeout_count (speech_module a) = 0%Z ->
   Speech.timeout_count (speech_module (exec inputs a)) = 0%Z).
Proof.
  revert a; induction inputs as [|i inputs IH]; intros a; [now repeat split|].
  cbn [exec fold_left]. fold (exec inputs (step i a)).
  destruct (step_keeps i a) as (H1 & H2 & H3).
  destruct (IH (step i a)) as (H4 & H5 & H6).
  repeat split; [congruence | congruence | auto].
Qed.

Lemma exec_effects inputs a :
  exists es, log (exec inputs a) = (log a ++ es)%list /\
             balanced (has_microphone a) es = true.
Proof.
  revert a; induction inputs as [|i inputs IH]; intros a; [apply stays|].
  cbn [exec fold_left]. fold (exec inputs (step i a)).
  destruct (step_effects i a) as (es1 & H1 & B1).
  destruct (IH (step i a)) as (es2 & H2 & B2).
  rewrite (proj1 (step_keeps i a)) in B2.
  exists (es1 ++ es2)%list. split; [eapply effects_trans; eauto|].
  now apply balanced_app.
Qed.

(** X6.  Along every run from start-up, every capture session that was
    started has been given exactly one 7000 ms restart timer, and every
    announcement [listening_started] belongs either to a capture session
    that started or to a start that failed with an exception.  When the
    capture module found its microphone no start fails, so every session
    is announced exactly once; when it did not, no session ever starts.
    The restart counter reads 0 with its bound at 3 all along. *)
Theorem sessions_accounted_for
    (cfg : gmap string (gmap string Config.pyval)) (mic : bool) (inputs : list Input) :
  let a := exec inputs (init cfg mic) in
  count is_thread_start (log a) = count is_restart_timer (log a) /\
  count is_listening_started (log a) =
    count is_thread_start (log a) + count is_raised (log a) /\
  (if mic then count is_raised (log a) = 0
   else count is_thread_start (log a) = 0) /\
  has_microphone a = mic /\
  Speech.timeout_count (speech_module a) = 0%Z /\
  Speech.max_timeouts (speech_module a) = 3%Z.
Proof.
  cbv zeta.
  destruct (exec_effects inputs (init cfg mic)) as (es & H & B).
  destruct (exec_keeps inputs (init cfg mic)) as (Hm & H3 & H0).
  cbn [log init app] in H. rewrite H.
  change (has_microphone (init cfg mic)) with mic in *.
  unfold balanced in B. rewrite !andb_true_iff, !Nat.eqb_eq in B.
  destruct B as [[B1 B2] B3].
  repeat split; try assumption.
  - destruct mic; now apply Nat.eqb_eq.
  - now apply H0.
Qed.

(** *** The history *)

Lemma step_history_nonempty i a :
  command_history (step i a) = command_history a \/
  exists now c t,
    command_history (step i a) =
    command_history (add_to_command_history now (String c t) a).
Proof.
  destruct i as [ | |now text|now text| | | | | | | | ];
    [ | | destruct text as [[|c t]|];
          [ left; frame
          | right; exists now, c, t; apply process_command_history
          | left; frame ]
    | destruct (step_text_recognized now text a) as [->|(c & t & -> & ->)];
      [ now left
      | right; exists now, c, t; rewrite process_command_history; frame ]
    | .. ]; left; frame.
Qed.

Lemma Forall_tl {A} (P : A -> Prop) (l : list A) : Forall P l -> Forall P (tl l).
Proof. intros H. destruct H; [constructor | assumption]. Qed.

(** X7.  In every reachable state, every record of the history holds a
    non-empty command and the intent tag [get_command_intent] gives that
    command: the empty-input guard keeps empty texts out, and the tag is
    never written by anything else. *)
Theorem history_records_well_formed
    (cfg : gmap string (gmap string Config.pyval)) (mic : bool) (inputs : list Input) :
  Forall (fun r => command r <> EmptyString /\
                   intent r = Intent.get_command_intent (command r))
    (command_history (exec inputs (init cfg mic))).
Proof.
  assert (G : forall a,
             Forall (fun r => command r <> EmptyString /\
                              intent r = Intent.get_command_intent (command r))
               (command_history a) ->
             Forall (fun r => command r <> EmptyString /\
                              intent r = Intent.get_command_intent (command r))
               (command_history (exec inputs a))).
  { induction inputs as [|i inputs IH]; intros a H; [exact H|].
    cbn [exec fold_left]. fold (exec inputs (step i a)). apply IH.
    destruct (step_history_nonempty i a) as [->|(now & c & t & ->)]; [exact H|].
    rewrite add_to_command_history_history. cbv zeta.
    assert (H' : Forall (fun r => command r <> EmptyString /\
                                  intent r = Intent.get_command_intent (command r))
                   (command_history a ++ [record_of (now, String c t)])).
    { apply Forall_app. split; [exact H|]. constructor; [|constructor].
      split; [discriminate | reflexivity]. }
    destruct (_ <? _)%nat; [now apply Forall_tl | exact H']. }
  apply G. constructor.
Qed.

End RunFacts.

(** ** Direct commands, the news category, blank recognitions *)

Module CommandFacts.
Import PyStr PyStrFacts App AppFacts EffectFacts.

(** The history right after [add_to_command_history], seen from its end. *)
Lemma previous_record_kept (h : list CommandRecord) (r r' : CommandRecord) (mx : nat) :
  2 <= mx ->
  let h1 := if (mx <? length ((h ++ [r]) ++ [r']))%nat
            then tl ((h ++ [r]) ++ [r']) else ((h ++ [r]) ++ [r'])%list in
  (1 <? length h1)%nat = true /\ h1 !! (length h1 - 2) = Some r.
Proof.
  intros Hmx. cbv zeta.
  destruct (Nat.ltb_spec mx (length ((h ++ [r]) ++ [r']))) as [Hlt|Hge].
  - rewrite !length_app in Hlt. cbn [length] in Hlt.
    destruct h as [|x h]; [cbn [length] in Hlt; lia|].
    cbn [app tl]. rewrite !length_app. cbn [length].
    split; [apply Nat.ltb_lt; lia|].
    replace (length h + 1 + 1 - 2) with (length h) by lia.
    rewrite <- app_assoc. cbn [app]. now apply list_lookup_middle.
  - rewrite !length_app. cbn [length].
    split; [apply Nat.ltb_lt; lia|].
    replace (length h + 1 + 1 - 2) with (length h) by lia.
    rewrite <- app_assoc. cbn [app]. now apply list_lookup_middle.
Qed.

Lemma repeat_run now text phrase a h r :
  (forall b, process_system_command now text b =
             execute_direct_command now phrase b) ->
  mem phrase ["time"; "current time"; "what time is it"] = false ->
  mem phrase ["date"; "today"; "what day is it"; "current date"] = false ->
  mem phrase ["repeat"; "repeat last"; "say that again"] = true ->
  truthy text = true ->
  command_history a = (h ++ [r])%list -> 2 <= max_history_size a ->
  new_effects a (process_command now (Some text) a) =
  [UpdateResponse ("You: " ++ text); GetCommandIntent text;
   UpdateResponse ("Your last command was: " ++ command r);
   SpeakTask ("Your last command was: " ++ command r)].
Proof.
  intros Hsys H1 H2 H3 Ht Hh Hmx.
  apply new_effects_app.
  destruct text as [|c t]; [discriminate|].
  unfold process_command. rewrite Hsys.
  unfold execute_direct_command. rewrite H1, H2, H3.
  set (a1 := add_to_command_history now (String c t)
               (emit (add_user_message (String c t)) a)).
  assert (Hh1 : command_history a1 =
                if (max_history_size a <?
                    length ((h ++ [r]) ++ [record_of (now, String c t)]))%nat
                then tl ((h ++ [r]) ++ [record_of (now, String c t)])
                else ((h ++ [r]) ++ [record_of (now, String c t)])%list).
  { unfold a1. rewrite add_to_command_history_history. proj_simpl.
    now rewrite Hh. }
  destruct (previous_record_kept h r (record_of (now, String c t))
              (max_history_size a) Hmx) as [L1 L2].
  cbv zeta in L1, L2. rewrite <- Hh1 in L1, L2.
  rewrite L1, L2.
  rewrite handle_assistant_response_log.
  unfold a1. rewrite add_to_command_history_log, log_emit.
  cbn [add_user_message truthy]. now rewrite <- !app_assoc.
Qed.

(** X8.  "Repeat" reports the command given before it.  The request
    itself is recorded first, so the answer names the record that was the
    last one before the request, for each of the five prefixes and the
    three phrasings, as long as the history can hold two records. *)
Theorem repeat_reports_previous
    (now : Clock) (a : App.t) (h : list CommandRecord) (r : CommandRecord)
    (p phrase : string) :
  In p command_prefixes ->
  In phrase ["repeat"; "repeat last"; "say that again"] ->
  command_history a = (h ++ [r])%list ->
  2 <= max_history_size a ->
  new_effects a (process_command now (Some (p ++ " " ++ phrase)) a) =
  [UpdateResponse ("You: " ++ p ++ " " ++ phrase);
   GetCommandIntent (p ++ " " ++ phrase);
   UpdateResponse ("Your last command was: " ++ command r);
   SpeakTask ("Your last command was: " ++ command r)].
Proof.
  intros Hp Hph Hh Hmx.
  cbn [command_prefixes In] in Hp, Hph.
  destruct Hp as [<-|[<-|[<-|[<-|[<-|[]]]]]];
    destruct Hph as [<-|[<-|[<-|[]]]];
    (eapply repeat_run; [intros b; reflexivity | reflexivity .. | exact Hh | exact Hmx]).
Qed.

(** After "What's the weather in Paris", "computer repeat" names it. *)
Lemma repeat_reports_previous_witness :
  new_effects
    (process_command Sample.noon (Some "What's the weather in Paris") Sample.fresh)
    (process_command Sample.noon (Some "computer repeat")
       (process_command Sample.noon (Some "What's the weather in Paris") Sample.fresh))
  = [UpdateResponse "You: computer repeat";
     GetCommandIntent "computer repeat";
     UpdateResponse "Your last command was: What's the weather in Paris";
     SpeakTask "Your last command was: What's the weather in Paris"].
Proof.
  apply (repeat_reports_previous Sample.noon
           (process_command Sample.noon (Some "What's the weather in Paris")
              Sample.fresh)
           [] (record_of (Sample.noon, "What's the weather in Paris"))
           "computer" "repeat").
  - now left.
  - now left.
  - reflexivity.
  - vm_compute. lia.
Defined.

(** *** The history listing *)

Lemma history_lines_first i r rest :
  history_lines i (r :: rest) =
  str_nat i ++ ". " ++ command r ++ " (" ++ timestamp r ++ ")" ++ nl ++
  history_lines (S i) rest.
Proof. reflexivity. Qed.

Lemma skipn_last {A} (k : nat) (l : list A) (x : A) :
  k <= length l -> rev (skipn k (l ++ [x])) = x :: rev (skipn k l).
Proof.
  intros H. rewrite skipn_app. replace (k - length l) with 0 by lia.
  cbn [skipn]. now rewrite rev_app_distr.
Qed.

(** X9.  The request "history" is itself recorded before the listing is
    built, so the listing is never empty: the answer is never "You
    haven't given me any commands yet.", and its first line is the
    request itself with the time it was made. *)
Theorem history_lists_request_first (now : Clock) (a : App.t) :
  1 <= max_history_size a ->
  exists rest,
    new_effects a (process_command now (Some "history") a) =
    [UpdateResponse "You: history"; GetCommandIntent "history";
     UpdateResponse ("Here are your recent commands:" ++ nl ++
                     "1. history (" ++ stamp now ++ ")" ++ nl ++ rest);
     SpeakTask ("Here are your recent commands:" ++ nl ++
                "1. history (" ++ stamp now ++ ")" ++ nl ++ rest)].
Proof.
  intros Hmx.
  set (a1 := add_to_command_history now "history"
               (emit [UpdateResponse "You: history"] a)).
  assert (E : process_command now (Some "history") a = show_command_history a1)
    by reflexivity.
  assert (Hh : exists h2, command_history a1 = (h2 ++ [record_of (now, "history")])%list).
  { unfold a1. rewrite add_to_command_history_history. proj_simpl. cbv zeta.
    destruct (Nat.ltb_spec (max_history_size a)
                (length (command_history a ++ [record_of (now, "history")])))
      as [Hlt|Hge]; [|eauto].
    destruct (command_history a) as [|x h]; [|cbn [app tl]; eauto].
    cbn [app length] in Hlt. lia. }
  destruct Hh as [h2 Hh].
  exists (history_lines 2
            (rev (skipn (length (h2 ++ [record_of (now, "history")]) -
                         Nat.min 5 (length (h2 ++ [record_of (now, "history")])))
                    h2))).
  apply new_effects_app. rewrite E. unfold show_command_history. rewrite Hh.
  destruct (h2 ++ [record_of (now, "history")])%list eqn:Hne;
    [now destruct h2|]. rewrite <- Hne. clear Hne.
  rewrite skipn_last by (rewrite length_app; cbn [length]; lia).
  rewrite history_lines_first.
  rewrite handle_assistant_response_log.
  unfold a1 at 1. rewrite add_to_command_history_log, log_emit.
  cbn [truthy append]. now rewrite <- !app_assoc.
Qed.

(** On a fresh application the listing has this one line. *)
Lemma history_lists_request_first_witness :
  exists rest,
    new_effects Sample.fresh (process_command Sample.noon (Some "history") Sample.fresh) =
    [UpdateResponse "You: history"; GetCommandIntent "history";
     UpdateResponse ("Here are your recent commands:" ++ nl ++
                     "1. history (" ++ stamp Sample.noon ++ ")" ++ nl ++ rest);
     SpeakTask ("Here are your recent commands:" ++ nl ++
                "1. history (" ++ stamp Sample.noon ++ ")" ++ nl ++ rest)].
Proof.
  apply (history_lists_request_first Sample.noon Sample.fresh). vm_compute. lia.
Defined.

(** *** The news category *)

Lemma contains_technology_tech s :
  contains "technology" s = true -> contains "tech" s = true.
Proof.
  rewrite !contains_iff. intros (pre & post & ->).
  exists pre, ("nology" ++ post). reflexivity.
Qed.

(** X10.  A news request is sent to the news collaborator with a
    category read off the lowered text: technology as soon as "tech"
    occurs anywhere in it (the test for "technology" adds nothing),
    otherwise sports for "sports", otherwise business for "business",
    otherwise general. *)
Theorem news_category (text : string) (a : App.t) :
  exists cat,
    process_news_command text a = emit [GetNews cat] a /\
    (Substring "tech" (lower text) -> cat = "technology") /\
    (~ Substring "tech" (lower text) -> Substring "sports" (lower text) ->
       cat = "sports") /\
    (~ Substring "tech" (lower text) -> ~ Substring "sports" (lower text) ->
       Substring "business" (lower text) -> cat = "business") /\
    (~ Substring "tech" (lower text) -> ~ Substring "sports" (lower text) ->
       ~ Substring "business" (lower text) -> cat = "general").
Proof.
  unfold process_news_command. eexists. split; [reflexivity|].
  rewrite <- !contains_iff.
  pose proof (contains_technology_tech (lower text)) as Htt.
  destruct (contains "technology" (lower text)) eqn:E1;
    [rewrite (Htt eq_refl); cbn [orb]; repeat split; congruence|].
  destruct (contains "tech" (lower text)) eqn:E2; cbn [orb];
    [repeat split; congruence|].
  destruct (contains "sports" (lower text)) eqn:E3; [repeat split; congruence|].
  destruct (contains "business" (lower text)) eqn:E4; repeat split; congruence.
Qed.

(** "Any BioTech news?" is a technology request. *)
Lemma news_category_witness :
  process_news_command "Any BioTech news?" Sample.fresh =
  emit [GetNews "technology"] Sample.fresh.
Proof.
  destruct (news_category "Any BioTech news?" Sample.fresh)
    as (cat & H & Ht & _).
  rewrite H. rewrite Ht; [reflexivity|].
  exists "any bio", " news?". reflexivity.
Defined.

(** *** Recognized text that is blank *)

Lemma lstrip_blank s :
  (forall ch, In ch (list_ascii_of_string s) -> is_space ch = true) ->
  lstrip s = EmptyString.
Proof.
  induction s as [|c s IH]; [reflexivity|]. intros H. cbn [lstrip].
  rewrite (H c) by now left. apply IH. intros ch Hin. apply H. now right.
Qed.

(** X11.  A recognition result made of whitespace only (the characters
    [str.isspace] accepts, among them the no-break space U+00A0 and the
    next-line character U+0085) is dropped by the capture thread: no
    history record, no answer, no change of state at all. *)
Theorem blank_recognition_ignored (now : Clock) (text : string) (a : App.t) :
  (forall ch, In ch (list_ascii_of_string text) -> is_space ch = true) ->
  step (TextRecognized now text) a = a.
Proof.
  intros H. cbn [step]. unfold strip. rewrite (lstrip_blank text H).
  cbn [rstrip truthy]. now rewrite andb_false_r.
Qed.

(** A blank, a tabulator and a no-break space. *)
Lemma blank_recognition_ignored_witness :
  let text := String " " (String (ascii_of_nat 9)
                (String (ascii_of_nat 160) EmptyString)) in
  step (TextRecognized Sample.noon text) Sample.fresh = Sample.fresh.
Proof.
  cbv zeta. apply blank_recognition_ignored.
  intros ch. cbn [list_ascii_of_string In].
  intros [<-|[<-|[<-|[]]]]; reflexivity.
Defined.

End CommandFacts.

(** ** The AI module's intent recognition *)

Module AIIntentFacts.
Import PyStr PyStrFacts AIIntent.

Lemma split_aux_nonempty sep skip cur s : 1 <= length (split_aux sep skip cur s).
Proof.
  revert skip cur; induction s as [|c r IH]; intros skip cur; cbn [split_aux].
  - cbn. lia.
  - destruct skip; [destruct (startswith _ _)|]; try apply IH.
    cbn [length]. lia.
Qed.

Lemma append_cons c s t : String c s ++ t = String c (s ++ t).
Proof. reflexivity. Qed.

Lemma append_nil_r s : s ++ "" = s.
Proof. induction s as [|c s IH]; [reflexivity|]. now rewrite append_cons, IH. Qed.

Lemma append_assoc s t u : (s ++ t) ++ u = s ++ t ++ u.
Proof. induction s as [|c s IH]; [reflexivity|]. now rewrite !append_cons, IH. Qed.

Lemma length_append s t :
  String.length (s ++ t) = String.length s + String.length t.
Proof.
  induction s as [|c s IH]; [reflexivity|].
  rewrite append_cons. cbn [String.length]. now rewrite IH.
Qed.

Lemma append_inv_length s1 t1 s2 t2 :
  s1 ++ t1 = s2 ++ t2 -> String.length s1 = String.length s2 ->
  s1 = s2 /\ t1 = t2.
Proof.
  revert s2; induction s1 as [|c s1 IH]; intros [|c2 s2] H Hl;
    try discriminate Hl.
  - now split.
  - rewrite !append_cons in H. injection H as -> H. injection Hl as Hl.
    destruct (IH _ H Hl) as [-> ->]. now split.
Qed.

Lemma substring_tail sep c s : Substring sep s -> Substring sep (String c s).
Proof. intros (a & b & ->). now exists (String c a), b. Qed.

Lemma cut_unique sep s pre post pre' post' :
  Cut sep s pre post -> Cut sep s pre' post' -> pre = pre' /\ post = post'.
Proof.
  intros [H1 M1] [H2 M2].
  assert (Hl : String.length pre = String.length pre').
  { apply Nat.le_antisymm; [now apply (M1 pre' post') | now apply (M2 pre post)]. }
  rewrite H1 in H2. destruct (append_inv_length _ _ _ _ H2 Hl) as [-> H].
  split; [reflexivity|]. now apply String.app_inj in H.
Qed.

Lemma cut_substring sep s pre post : Cut sep s pre post -> Substring sep s.
Proof. intros [-> _]. now exists pre, post. Qed.

Lemma piece_unique sep s p1 p2 : Piece sep s p1 -> Piece sep s p2 -> p1 = p2.
Proof.
  intros [[N1 ->]|[post1 C1]] [[N2 ->]|[post2 C2]]; try reflexivity.
  - exfalso. apply N1. eapply cut_substring; eauto.
  - exfalso. apply N2. eapply cut_substring; eauto.
  - now destruct (cut_unique _ _ _ _ _ _ C1 C2).
Qed.

Lemma cut_exists c0 sep s :
  Substring (String c0 sep) s -> exists pre post, Cut (String c0 sep) s pre post.
Proof.
  induction s as [|c r IH]; intros Hs.
  - destruct Hs as ([|? ?] & b & H); discriminate H.
  - destruct (startswith (String c r) (String c0 sep)) eqn:E.
    + apply startswith_iff in E as [post E].
      exists "", post. split; [exact E|]. intros; cbn; lia.
    + assert (Hr : Substring (String c0 sep) r).
      { destruct Hs as ([|a0 a] & b & H).
        - assert (startswith (String c r) (String c0 sep) = true)
            by (apply startswith_iff; now exists b).
          congruence.
        - rewrite append_cons in H. injection H as _ ->. now exists a, b. }
      destruct (IH Hr) as (pre & post & [-> M]).
      exists (String c pre), post. split; [reflexivity|].
      intros [|c' p'] post' H.
      * assert (startswith (String c (pre ++ String c0 sep ++ post)) (String c0 sep) = true)
          by (apply startswith_iff; now exists post').
        congruence.
      * rewrite append_cons in H. injection H as _ H.
        cbn [String.length]. specialize (M _ _ H). lia.
Qed.

Lemma piece_total c0 sep s : exists piece, Piece (String c0 sep) s piece.
Proof.
  destruct (contains (String c0 sep) s) eqn:E.
  - apply contains_iff in E. destruct (cut_exists _ _ _ E) as (pre & post & C).
    exists pre. right. now exists post.
  - exists s. left. split; [|reflexivity]. rewrite <- contains_iff. congruence.
Qed.

Lemma split_aux_skip sep p cur rest :
  split_aux sep (String.length p) cur (p ++ rest) = split_aux sep 0 cur rest.
Proof.
  induction p as [|c p IH]; [reflexivity|].
  rewrite append_cons. cbn [String.length split_aux]. exact IH.
Qed.

Lemma split_aux_none c0 sep cur s :
  ~ Substring (String c0 sep) s ->
  split_aux (String c0 sep) 0 cur s = [cur ++ s].
Proof.
  revert cur; induction s as [|c r IH]; intros cur Hn.
  - cbn [split_aux]. now rewrite append_nil_r.
  - cbn [split_aux].
    destruct (startswith (String c r) (String c0 sep)) eqn:E.
    + exfalso. apply Hn. apply startswith_iff in E as [post E].
      exists "", post. exact E.
    + rewrite IH by (intros H; apply Hn; now apply substring_tail).
      now rewrite append_assoc.
Qed.

Lemma split_aux_cut c0 sep cur s pre post :
  Cut (String c0 sep) s pre post ->
  split_aux (String c0 sep) 0 cur s =
  (cur ++ pre) :: split_aux (String c0 sep) 0 "" post.
Proof.
  revert cur s; induction pre as [|c pre IH]; intros cur s [-> M].
  - change ("" ++ String c0 sep ++ post) with (String c0 (sep ++ post)).
    cbn [split_aux].
    assert (E : startswith (String c0 (sep ++ post)) (String c0 sep) = true)
      by (apply startswith_iff; now exists post).
    rewrite E, append_nil_r. f_equal.
    replace (String.length (String c0 sep) - 1) with (String.length sep)
      by (cbn [String.length]; lia).
    apply split_aux_skip.
  - rewrite append_cons. cbn [split_aux].
    destruct (startswith (String c (pre ++ String c0 sep ++ post)) (String c0 sep)) eqn:E.
    + apply startswith_iff in E as [post' E].
      specialize (M "" post' E). cbn in M. lia.
    + rewrite (IH (cur ++ String c "") (pre ++ String c0 sep ++ post)).
      * now rewrite append_assoc.
      * split; [reflexivity|]. intros pre' post' H.
        assert (H' : String c pre ++ String c0 sep ++ post =
                     String c pre' ++ String c0 sep ++ post')
          by (rewrite !append_cons; now f_equal).
        specialize (M _ _ H'). cbn [String.length] in M. lia.
Qed.

Lemma hd_split c0 sep s piece :
  Piece (String c0 sep) s piece -> hd "" (split (String c0 sep) s) = piece.
Proof.
  unfold split. intros [[Hn ->]|[post C]].
  - now rewrite split_aux_none.
  - now rewrite (split_aux_cut _ _ _ _ _ _ C).
Qed.

Lemma piece_no_sep c0 sep s piece :
  Piece (String c0 sep) s piece -> ~ Substring (String c0 sep) piece.
Proof.
  intros [[Hn ->]|[post [-> M]]]; [exact Hn|].
  intros (a & b & ->).
  specialize (M a (b ++ String c0 sep ++ post)).
  rewrite !append_assoc in M. specialize (M eq_refl).
  rewrite !length_append in M. cbn [String.length] in M. lia.
Qed.

(** X12.  [_extract_location] answers [None] exactly when "in " does not
    occur in the text.  Otherwise it cuts the text at the first "in ",
    takes what follows up to the next "in " (or to the end), strips it,
    and answers what that holds up to its first blank: a word without
    blanks, which is empty when the second "in " follows the first at
    once, as in "rain in spain". *)
Theorem extract_location_spec (text : string) :
  (_extract_location text = None <-> ~ Substring "in " text) /\
  (forall loc,
     _extract_location text = Some loc <->
     exists pre rest piece,
       Cut "in " text pre rest /\
       Piece "in " rest piece /\
       Piece " " (strip piece) loc) /\
  (forall loc, _extract_location text = Some loc -> ~ Substring " " loc).
Proof.
  assert (Hsome : forall pre rest piece loc,
             Cut "in " text pre rest -> Piece "in " rest piece ->
             Piece " " (strip piece) loc ->
             _extract_location text = Some loc).
  { intros pre rest piece loc C P W. unfold _extract_location.
    assert (Hc : contains "in " text = true)
      by (apply contains_iff; eapply cut_substring; eauto).
    rewrite Hc. unfold split. rewrite (split_aux_cut _ _ _ _ _ _ C).
    fold (split "in " rest).
    assert (Hh := hd_split _ _ _ _ P).
    destruct (split "in " rest) as [|p0 more] eqn:Es.
    - unfold split in Es.
      pose proof (split_aux_nonempty "in " 0 "" rest) as Hl.
      rewrite Es in Hl. cbn in Hl. lia.
    - cbn [hd] in Hh. subst p0. cbn [length nth].
      change (split_aux " " 0 "" (strip piece)) with (split " " (strip piece)).
      now rewrite (hd_split _ _ _ _ W). }
  assert (Hex : forall loc, _extract_location text = Some loc ->
             exists pre rest piece,
               Cut "in " text pre rest /\ Piece "in " rest piece /\
               Piece " " (strip piece) loc).
  { intros loc H.
    destruct (contains "in " text) eqn:Hc;
      [|unfold _extract_location in H; rewrite Hc in H; discriminate].
    apply contains_iff in Hc.
    destruct (cut_exists _ _ _ Hc) as (pre & rest & C).
    destruct (piece_total "i" "n " rest) as [piece P].
    destruct (piece_total " " "" (strip piece)) as [loc' W].
    rewrite (Hsome _ _ _ _ C P W) in H. injection H as <-.
    now exists pre, rest, piece. }
  split; [|split].
  - split.
    + intros H Hs. destruct (cut_exists _ _ _ Hs) as (pre & rest & C).
      destruct (piece_total "i" "n " rest) as [piece P].
      destruct (piece_total " " "" (strip piece)) as [loc W].
      rewrite (Hsome _ _ _ _ C P W) in H. discriminate.
    + intros Hn. unfold _extract_location.
      destruct (contains "in " text) eqn:Hc; [|reflexivity].
      apply contains_iff in Hc. contradiction.
  - intros loc. split; [apply Hex|].
    intros (pre & rest & piece & C & P & W). eapply Hsome; eauto.
  - intros loc H. destruct (Hex loc H) as (pre & rest & piece & _ & _ & W).
    eapply piece_no_sep; eauto.
Qed.

(** The theorem at "weather in paris tomorrow", at "rain in spain" and
    at a text without "in ". *)
Lemma extract_location_spec_witness :
  _extract_location "weather in paris tomorrow" = Some "paris" /\
  _extract_location "rain in spain" = Some "" /\
  _extract_location "weather today" = None.
Proof.
  split; [reflexivity|]. split; [reflexivity|].
  apply (proj1 (extract_location_spec "weather today")).
  rewrite <- contains_iff. discriminate.
Defined.

(** X13.  [_extract_category] answers the first category, in the order
    business, entertainment, general, health, science, sports,
    technology, that occurs in the lowered text, and [None] when none
    does. *)
Theorem extract_category_spec (text : string) :
  match _extract_category text with
  | Some cat =>
      In cat categories /\ Substring cat (lower text) /\
      exists before after,
        categories = (before ++ cat :: after)%list /\
        forall c, In c before -> ~ Substring c (lower text)
  | None => forall c, In c categories -> ~ Substring c (lower text)
  end.
Proof.
  unfold _extract_category.
  assert (G : forall l,
             match find (fun category => contains category (lower text)) l with
             | Some cat =>
                 In cat l /\ Substring cat (lower text) /\
                 exists before after,
                   l = (before ++ cat :: after)%list /\
                   forall c, In c before -> ~ Substring c (lower text)
             | None => forall c, In c l -> ~ Substring c (lower text)
             end).
  { induction l as [|x l IH]; cbn [find]; [intros c []|].
    destruct (contains x (lower text)) eqn:E.
    - split; [now left|]. split; [now apply contains_iff|].
      exists [], l. split; [reflexivity | intros c []].
    - destruct (find _ l) as [cat|].
      + destruct IH as (Hin & Hs & before & after & -> & Hb).
        split; [now right|]. split; [exact Hs|].
        exists (x :: before), after. split; [reflexivity|].
        intros c [<-|Hc]; [|now apply Hb].
        rewrite <- contains_iff. congruence.
      + intros c [<-|Hc]; [|now apply IH].
        rewrite <- contains_iff. congruence. }
  apply G.
Qed.

(** X14.  The AI module's own classifier knows four intents, and it and
    the router's [get_command_intent] say weather for exactly the same
    commands.  They part on news: the AI module counts "articles" as a
    news keyword and the router "latest", so a command is news for one
    and not for the other only when it holds that word and neither
    "news" nor "headlines".  What the AI module calls time the router
    calls time, reminder or news, and what it calls general the router
    calls general, help, reminder or news. *)
Theorem ai_process_command_spec (command : string) :
  let r := fst (AIIntent.process_command command) in
  let g := Intent.get_command_intent command in
  In r ["weather"; "news"; "time"; "general"] /\
  (r = "weather" <-> g = "weather") /\
  (r = "news" -> g <> "news" ->
     Substring "articles" (lower command) /\
     ~ Substring "news" (lower command) /\
     ~ Substring "headlines" (lower command)) /\
  (g = "news" -> r <> "news" ->
     Substring "latest" (lower command) /\
     ~ Substring "news" (lower command) /\
     ~ Substring "headlines" (lower command)) /\
  (r = "time" -> In g ["time"; "reminder"; "news"]) /\
  (r = "general" -> In g ["general"; "help"; "reminder"; "news"]).
Proof.
  cbv zeta. rewrite <- !contains_iff.
  unfold AIIntent.process_command, Intent.get_command_intent,
    Intent.weather_words, Intent.news_words, Intent.time_words.
  destruct (any_in ["weather"; "temperature"; "forecast"] (lower command)).
  { cbn [fst]. repeat split; try tauto; try discriminate; cbn; tauto. }
  cbn [any_in existsb].
  destruct (contains "news" (lower command));
    destruct (contains "headlines" (lower command));
    destruct (contains "articles" (lower command));
    destruct (contains "latest" (lower command));
    destruct (any_in Intent.reminder_words (lower command));
    destruct (contains "time" (lower command) ||
              (contains "date" (lower command) ||
               (contains "day" (lower command) || false)));
    destruct (any_in Intent.help_words (lower command));
    cbn [orb fst];
    repeat (split || intro); try discriminate; try congruence;
    try (cbn [In]; tauto).
Qed.

(** "Show me the articles" is news for the AI module and general for the
    router. *)
Lemma ai_process_command_spec_witness :
  Substring "articles" (lower "Show me the articles").
Proof.
  destruct (ai_process_command_spec "Show me the articles")
    as (_ & _ & H & _).
  apply H; [reflexivity | discriminate].
Defined.

End AIIntentFacts.

(** ** The REST clients and their callbacks *)

Module ClientFacts.
Import PyStr Json.

Lemma tomorrow_forecast_null : Weather.tomorrow_forecast JNull = None.
Proof. reflexivity. Qed.

(** X15.  Without an API key, or for a location that is [None] or the
    empty string, [get_weather] does no request at all and reports
    success with the built-in sample data: 20 degrees, clear sky, the
    data of Example City and no forecast. *)
Theorem weather_sample_data (env : Weather.Env) (loc : json) :
  Weather.has_key env = false \/ truthy loc = false ->
  Weather.weather_info env loc =
    inl {| Weather.success := true; Weather.location := loc;
           Weather.temperature := JInt 20;
           Weather.description := JStr "clear sky";
           Weather.full_data := Some Weather._get_dummy_weather;
           Weather.forecast_text := None; Weather.error := None |}.
Proof.
  intros H. unfold Weather.weather_info.
  assert (Hc : Weather.get_current_weather env loc = Weather._get_dummy_weather).
  { unfold Weather.get_current_weather.
    destruct H as [-> | ->]; [reflexivity|].
    now destruct (negb (Weather.has_key env)). }
  assert (Hf : Weather.get_forecast env loc = JNull).
  { unfold Weather.get_forecast.
    destruct H as [-> | ->]; [reflexivity|].
    now destruct (negb (Weather.has_key env)). }
  rewrite Hc, Hf. reflexivity.
Qed.

(** The theorem at the location the router passes on the default
    configuration, with an API key and a server that would answer. *)
Lemma weather_sample_data_witness :
  let env := {| Weather.api_key := Some "k";
                Weather.current := Weather.HttpJson (JDict [("cod", JInt 200)]);
                Weather.forecast := Weather.HttpJson JNull |} in
  let loc := of_pyval (Config.get Config.create_default_config
                         "default_location" "Lucknow" Config.PNone) in
  Weather.success <$> (match Weather.weather_info env loc with
                       | inl i => Some i | inr _ => None end) = Some true.
Proof.
  cbv zeta.
  rewrite (weather_sample_data
             {| Weather.api_key := Some "k";
                Weather.current := Weather.HttpJson (JDict [("cod", JInt 200)]);
                Weather.forecast := Weather.HttpJson JNull |}
             (of_pyval (Config.get Config.create_default_config
                          "default_location" "Lucknow" Config.PNone))
             (or_intror eq_refl)).
  reflexivity.
Defined.

(** X16.  The forecast text is taken from entry 4 of the forecast list
    and from nowhere else: a list of one to four entries passes the
    [len(...) > 0] test, the index then fails, the inner [try] drops the
    failure, and the result still reports success, without forecast. *)
Theorem forecast_needs_entry_four (env : Weather.Env) (loc : json)
    (fields : list (string * json)) (entries : list json) (info : Weather.Info) :
  Weather.get_forecast env loc = JDict fields ->
  assoc "list" fields = Some (JList entries) ->
  Weather.weather_info env loc = inl info ->
  Weather.success info = true /\
  Weather.forecast_text info =
    bind (nth_error entries 4) Weather.first_description /\
  (length entries <= 4 -> Weather.forecast_text info = None).
Proof.
  intros Hf Hl Hi. unfold Weather.weather_info in Hi.
  destruct (negb _); [discriminate|].
  destruct (bind _ _) as [temp|]; [|discriminate].
  destruct (Weather.first_description _) as [descr|]; [|discriminate].
  injection Hi as <-. cbn [Weather.success Weather.forecast_text].
  assert (Ht : Weather.tomorrow_forecast (Weather.get_forecast env loc) =
               bind (nth_error entries 4) Weather.first_description).
  { rewrite Hf. unfold Weather.tomorrow_forecast.
    destruct fields as [|f fields]; [discriminate|].
    cbn [truthy has item len bind]. rewrite Hl. cbn [bind len index].
    destruct entries; reflexivity. }
  rewrite Ht. repeat split.
  intros Hn. apply nth_error_None in Hn. now rewrite Hn.
Qed.

(** The theorem for a forecast of two entries. *)
Lemma forecast_needs_entry_four_witness :
  let entry := JDict [("weather", JList [JDict [("description", JStr "rain")]])] in
  let env := {| Weather.api_key := Some "k";
                Weather.current := Weather.HttpJson Weather._get_dummy_weather;
                Weather.forecast :=
                  Weather.HttpJson (JDict [("list", JList [entry; entry])]) |} in
  exists info,
    Weather.weather_info env (JStr "Paris") = inl info /\
    Weather.success info = true /\ Weather.forecast_text info = None.
Proof.
  cbv zeta. eexists. split; [reflexivity|].
  pose (entry := JDict [("weather", JList [JDict [("description", JStr "rain")]])]).
  refine (let H := forecast_needs_entry_four
                     {| Weather.api_key := Some "k";
                        Weather.current := Weather.HttpJson Weather._get_dummy_weather;
                        Weather.forecast :=
                          Weather.HttpJson (JDict [("list", JList [entry; entry])]) |}
                     (JStr "Paris") [("list", JList [entry; entry])] [entry; entry] _
                     eq_refl eq_refl eq_refl in _).
  split; [exact (proj1 H)|].
  apply (proj2 (proj2 H)). cbn. lia.
Defined.

(** The temperature read from a body: [x.get('main', {}).get('temp', 'N/A')]. *)
Lemma temperature_shape (body : json) (t : json) :
  bind (get body "main" (JDict [])) (fun m => get m "temp" (JStr "N/A")) = Some t <->
  exists fields main,
    body = JDict fields /\
    ((assoc "main" fields = None /\ main = []) \/
     assoc "main" fields = Some (JDict main)) /\
    t = match assoc "temp" main with Some v => v | None => JStr "N/A" end.
Proof.
  split.
  - destruct body as [| | | | | |fields]; try discriminate.
    cbn [get bind]. destruct (assoc "main" fields) as [m|] eqn:E.
    + destruct m as [| | | | | |main]; try discriminate.
      cbn [get]. intros [= <-]. exists fields, main.
      split; [reflexivity|]. split; [now right | reflexivity].
    + cbn [get assoc]. intros [= <-]. exists fields, [].
      split; [reflexivity|]. split; [now left | reflexivity].
  - intros (fields & main & -> & [[E ->]|E] & ->); cbn [get bind]; now rewrite E.
Qed.

(** The description read from a body:
    [x.get('weather', [{}])[0].get('description', 'N/A')]. *)
Lemma description_shape (body : json) (d : json) :
  Weather.first_description body = Some d <->
  exists fields w,
    body = JDict fields /\
    ((assoc "weather" fields = None /\ w = []) \/
     exists ws, assoc "weather" fields = Some (JList (JDict w :: ws))) /\
    d = match assoc "description" w with Some v => v | None => JStr "N/A" end.
Proof.
  unfold Weather.first_description. split.
  - destruct body as [| | | | | |fields]; try discriminate.
    cbn [get bind]. destruct (assoc "weather" fields) as [x|] eqn:E.
    + destruct x as [| | | |s|items|]; try discriminate.
      * cbn [index]. destruct (String.get 0 s); discriminate.
      * destruct items as [|[| | | | | |w] ws]; try discriminate.
        cbn [index nth_error bind get]. intros [= <-].
        exists fields, w. split; [reflexivity|].
        split; [right; now exists ws | reflexivity].
    + cbn [index nth_error bind get assoc]. intros [= <-].
      exists fields, []. split; [reflexivity|]. split; [now left | reflexivity].
  - intros (fields & w & -> & [[E ->]|[ws E]] & ->); cbn [get bind]; now rewrite E.
Qed.

(** X17.  What [get_weather] hands to a callback that does not raise:
    exactly one result, the one it also returns.  The result reports
    success exactly when the current-weather body is a non-empty JSON
    object whose "main" entry, when present, is an object and whose
    "weather" entry, when present, is a list that starts with an object;
    temperature and description are then read from those, with "N/A"
    for a missing key.  For every other body (a body that is falsy or
    of another shape) the result reports failure and carries the sample
    temperature 20 and description "clear sky", and no data. *)
Theorem get_weather_delivery {S : Type} (env : Weather.Env) (loc : json)
    (cb : @Weather.Callback S) (s : S) :
  (forall i s0, snd (cb i s0) = None) ->
  let r := Weather.get_weather env loc (Some (Weather.recording cb)) (s, []) in
  let body := Weather.get_current_weather env loc in
  exists info,
    snd (fst r) = [info] /\ snd r = Weather.Returned info /\
    Weather.location info = loc /\
    (Weather.success info = true <->
       exists fields main w,
         body = JDict fields /\ fields <> [] /\
         ((assoc "main" fields = None /\ main = []) \/
          assoc "main" fields = Some (JDict main)) /\
         ((assoc "weather" fields = None /\ w = []) \/
          exists ws, assoc "weather" fields = Some (JList (JDict w :: ws))) /\
         Weather.temperature info =
           match assoc "temp" main with Some v => v | None => JStr "N/A" end /\
         Weather.description info =
           match assoc "description" w with Some v => v | None => JStr "N/A" end /\
         Weather.full_data info = Some body /\
         Weather.error info = None) /\
    (Weather.success info = false ->
       (Weather.error info = Some Weather.FailedToRetrieve <-> truthy body = false) /\
       (Weather.error info = Some Weather.BadShape <-> truthy body = true) /\
       Weather.temperature info = JInt 20 /\
       Weather.description info = JStr "clear sky" /\
       Weather.full_data info = None /\
       Weather.forecast_text info = None).
Proof.
  intros Hcb. cbv zeta.
  unfold Weather.get_weather, Weather.fail_with, Weather.recording.
  destruct (Weather.weather_info env loc) as [info|e] eqn:E.
  - pose proof (Hcb info s) as Hn. cbn [fst snd].
    destruct (cb info s) as [s1 o]. cbn in Hn. subst o.
    exists info. cbn [fst snd app].
    unfold Weather.weather_info in E.
    destruct (truthy (Weather.get_current_weather env loc)) eqn:Ht;
      cbn [negb] in E; [|discriminate].
    destruct (bind _ _) as [t|] eqn:Et; [|discriminate].
    destruct (Weather.first_description _) as [d|] eqn:Ed; [|discriminate].
    injection E as <-. cbn [Weather.success Weather.location Weather.temperature
      Weather.description Weather.full_data Weather.error Weather.forecast_text].
    apply temperature_shape in Et as (fields & main & Hb & Hm & ->).
    apply description_shape in Ed as (fields' & w & Hb' & Hw & ->).
    rewrite Hb in Hb'. injection Hb' as <-.
    repeat split; try discriminate.
    intros _. exists fields, main, w. rewrite Hb in Ht.
    repeat split; try assumption.
    intros ->. discriminate Ht.
  - pose proof (Hcb (Weather.error_response loc e) s) as Hn. cbn [fst snd].
    destruct (cb (Weather.error_response loc e) s) as [s1 o]. cbn in Hn. subst o.
    exists (Weather.error_response loc e). cbn [fst snd app].
    cbn [Weather.error_response Weather.success Weather.location
      Weather.temperature Weather.description Weather.full_data Weather.error
      Weather.forecast_text].
    unfold Weather.weather_info in E.
    destruct (truthy (Weather.get_current_weather env loc)) eqn:Ht;
      cbn [negb] in E.
    + assert (He : e = Weather.BadShape).
      { destruct (bind _ _); [destruct (Weather.first_description _)|];
          congruence. }
      subst e. repeat split; try discriminate; try reflexivity.
      intros (fields & main & w & Hb & _ & Hm & Hw & _).
      assert (Ht' : bind (get (Weather.get_current_weather env loc) "main" (JDict []))
                      (fun m => get m "temp" (JStr "N/A")) <> None).
      { intros Hnone.
        assert (X : bind (get (Weather.get_current_weather env loc) "main" (JDict []))
                      (fun m => get m "temp" (JStr "N/A")) =
                    Some (match assoc "temp" main with
                          | Some v => v | None => JStr "N/A" end))
          by (apply temperature_shape; now exists fields, main).
        congruence. }
      assert (Hd' : Weather.first_description (Weather.get_current_weather env loc)
                    <> None).
      { intros Hnone.
        assert (X : Weather.first_description (Weather.get_current_weather env loc) =
                    Some (match assoc "description" w with
                          | Some v => v | None => JStr "N/A" end))
          by (apply description_shape; now exists fields, w).
        congruence. }
      destruct (bind _ _); [destruct (Weather.first_description _)|];
        congruence.
    + injection E as <-. repeat split; try discriminate; try reflexivity.
      intros (fields & main & w & Hb & Hne & _).
      rewrite Hb in Ht. destruct fields; [congruence | discriminate Ht].
Qed.

(** The theorem for a server that answers with a JSON list. *)
Lemma get_weather_delivery_witness :
  let env := {| Weather.api_key := Some "k";
                Weather.current := Weather.HttpJson (JList [JInt 1]);
                Weather.forecast := Weather.HttpRaises |} in
  exists info,
    snd (fst (Weather.get_weather env (JStr "Paris")
                (Some (Weather.recording (fun _ (s : unit) => (s, None))))
                (tt, []))) = [info] /\
    Weather.success info = false /\ Weather.temperature info = JInt 20 /\
    Weather.error info = Some Weather.BadShape.
Proof.
  cbv zeta.
  destruct (get_weather_delivery
              {| Weather.api_key := Some "k";
                 Weather.current := Weather.HttpJson (JList [JInt 1]);
                 Weather.forecast := Weather.HttpRaises |}
              (JStr "Paris") (fun _ (s : unit) => (s, None)) tt
              (fun _ _ => eq_refl)) as (info & Hl & Hr & _ & _ & Hf).
  exists info. split; [exact Hl|].
  assert (Hs : Weather.success info = false).
  { vm_compute in Hl. injection Hl as <-. reflexivity. }
  destruct (Hf Hs) as (_ & Hb & Ht & _).
  split; [exact Hs|]. split; [exact Ht|]. now apply Hb.
Defined.

(** X18.  [get_news] reports success whatever the request did: without
    an API key, after a failed request and for a body that is not a
    JSON object the articles are the two sample headlines, and a
    callback that does not raise is called exactly once, with that
    result. *)
Theorem get_news_delivery {S : Type} (env : News.Env)
    (cfg : gmap string (gmap string Config.pyval)) (cat : string)
    (cb : @News.Callback S) (s : S) :
  (forall i s0, snd (cb i s0) = None) ->
  let country := Config.get cfg "news" "default_country" (Config.PStr "us") in
  let count := Config.get cfg "news" "article_count" (Config.PInt 5) in
  exists info,
    News.get_news env cfg cat (Some cb) s = (fst (cb info s), News.Returned info) /\
    News.success info = true /\ News.category info = cat /\
    (News.articles info <> News._get_dummy_headlines env ->
       News.has_key env = true /\
       exists fields,
         News.headlines env country cat count = Weather.HttpJson (JDict fields) /\
         News.articles info =
           match assoc "articles" fields with Some v => v | None => JList [] end).
Proof.
  intros Hcb. cbv zeta. exists (News.news_info env cfg cat).
  unfold News.get_news.
  pose proof (Hcb (News.news_info env cfg cat) s) as Hn.
  destruct (cb (News.news_info env cfg cat) s) as [s1 o]. cbn in Hn. subst o.
  split; [reflexivity|]. split; [reflexivity|]. split; [reflexivity|].
  unfold News.news_info, News.get_headlines. cbn [News.articles].
  destruct (News.has_key env); cbn [negb]; [|intros []; reflexivity].
  destruct (News.headlines env _ cat _) as [body|]; [|intros []; reflexivity].
  destruct body; cbn [get]; try (intros []; reflexivity).
  intros _. split; [reflexivity|]. eexists. split; reflexivity.
Qed.

(** The theorem for a server whose answer has no articles key. *)
Lemma get_news_delivery_witness :
  let env := {| News.api_key := Some "k";
                News.headlines := fun _ _ _ =>
                  Weather.HttpJson (JDict [("status", JStr "ok")]);
                News.now_iso := "2024-01-01T12:00:00" |} in
  exists info,
    News.get_news env Config.create_default_config "general"
      (Some (fun _ (s : unit) => (s, None))) tt = (tt, News.Returned info) /\
    News.success info = true.
Proof.
  cbv zeta.
  destruct (get_news_delivery
              {| News.api_key := Some "k";
                 News.headlines := fun _ _ _ =>
                   Weather.HttpJson (JDict [("status", JStr "ok")]);
                 News.now_iso := "2024-01-01T12:00:00" |}
              Config.create_default_config "general"
              (fun _ (s : unit) => (s, None)) tt
              (fun _ _ => eq_refl)) as (info & Hr & Hs & _).
  exists info. split; [exact Hr | exact Hs].
Defined.

(** X19.  A callback that raises on the first result is called a second
    time, by each of [process_query], [get_weather] and [get_news], with
    a result that reports failure and carries the exception; when it
    returns then, that second result is what the call returns, and when
    it raises again the exception leaves the call. *)
Theorem raising_callback_called_twice {S : Type} (s : S) (msg : string) :
  (forall env m q (cb : @AI.Callback S),
     snd (cb (AI.response_info env m q) s) = Some msg ->
     let s1 := fst (cb (AI.response_info env m q) s) in
     let err := AI.error_response q msg in
     let r := AI.process_query env m q (Some (AI.recording cb)) (s, []) in
     snd (fst r) = [AI.response_info env m q; err] /\
     fst (fst r) = fst (cb err s1) /\
     snd r = match snd (cb err s1) with
             | None => AI.Returned err
             | Some e2 => AI.Propagated e2
             end) /\
  (forall env loc info (cb : @Weather.Callback S),
     Weather.weather_info env loc = inl info ->
     snd (cb info s) = Some msg ->
     let s1 := fst (cb info s) in
     let err := Weather.error_response loc (Weather.FromCallback msg) in
     let r := Weather.get_weather env loc (Some (Weather.recording cb)) (s, []) in
     snd (fst r) = [info; err] /\
     fst (fst r) = fst (cb err s1) /\
     snd r = match snd (cb err s1) with
             | None => Weather.Returned err
             | Some e2 => Weather.Propagated e2
             end) /\
  (forall env cfg cat (cb : @News.Callback S),
     snd (cb (News.news_info env cfg cat) s) = Some msg ->
     let s1 := fst (cb (News.news_info env cfg cat) s) in
     let err := {| News.success := false; News.category := cat;
                   News.articles := News._get_dummy_headlines env;
                   News.error := Some msg |} in
     let r := News.get_news env cfg cat (Some cb) s in
     fst r = fst (cb err s1) /\
     snd r = match snd (cb err s1) with
             | None => News.Returned err
             | Some e2 => News.Propagated e2
             end).
Proof.
  split; [|split].
  - intros env m q cb H. cbv zeta.
    unfold AI.process_query, AI.recording. cbn [fst snd].
    destruct (cb (AI.response_info env m q) s) as [s1 o]. cbn in H. subst o.
    cbn [fst snd app].
    destruct (cb (AI.error_response q msg) s1) as [s2 [e2|]]; now cbn.
  - intros env loc info cb Hi H. cbv zeta.
    unfold Weather.get_weather, Weather.fail_with, Weather.recording.
    rewrite Hi. cbn [fst snd].
    destruct (cb info s) as [s1 o]. cbn in H. subst o.
    cbn [fst snd app].
    destruct (cb (Weather.error_response loc (Weather.FromCallback msg)) s1)
      as [s2 [e2|]]; now cbn.
  - intros env cfg cat cb H. cbv zeta. unfold News.get_news.
    destruct (cb (News.news_info env cfg cat) s) as [s1 o]. cbn in H. subst o.
    cbn [fst snd].
    destruct (cb _ s1) as [s2 [e2|]]; now cbn.
Qed.

(** The theorem for a callback that counts its calls and raises on
    results that report success. *)
Lemma raising_callback_called_twice_witness :
  let cb := fun (i : AI.ResponseInfo) (n : nat) =>
              (S n, if AI.success i then Some "boom" else None) in
  let env := {| AI.openai_available := false; AI.api := AI.ApiNoChoices;
                AI.random_index := 0 |} in
  let r := AI.process_query env {| AI.api_key := None |} "hello"
             (Some (AI.recording cb)) (0, []) in
  length (snd (fst r)) = 2 /\ fst (fst r) = 2 /\
  snd r = AI.Returned (AI.error_response "hello" "boom").
Proof.
  cbv zeta.
  destruct (proj1 (raising_callback_called_twice 0 "boom")
              {| AI.openai_available := false; AI.api := AI.ApiNoChoices;
                 AI.random_index := 0 |}
              {| AI.api_key := None |} "hello"
              (fun (i : AI.ResponseInfo) (n : nat) =>
                 (S n, if AI.success i then Some "boom" else None))
              eq_refl) as (H1 & H2 & H3).
  rewrite H1, H2, H3. repeat split.
Defined.

End ClientFacts.
